(** * gnucash-mcp: the ledger tools of [server.py], embedded and verified

    The tools of [server.py] are pure text-in/text-out functions over three
    pieces of state: the module globals ([current_session], [write_mode],
    [configured_file]), the host (file system, process table, clock, standard
    error) and the GnuCash book held by the open session.  Each tool is
    embedded as a function [World -> string * World]; Python [float]s are the
    kernel's binary64 floats, Python [int]s are [Z], Python [str]s are
    [string]s of bytes. *)

From Stdlib Require Import ZArith Ascii String List Bool Lia.
From Stdlib Require Import PrimFloat FloatOps SpecFloat.
From Stdlib Require DecimalString.
From Stdlib Require FloatAxioms.
From stdpp Require Import base decidable option list sorting gmap strings.

Local Open Scope Z_scope.
(* A decimal float literal denotes the nearest binary64 value, as in Python. *)
#[local] Set Warnings "-inexact-float".
#[local] Arguments String.append !s1 s2 : simpl nomatch.

(** ** Python strings *)

Module PyStr.

(** [c.lower()] on one byte: only the letters [A]..[Z] change (the bytes of
    a non-ASCII character are left as they are). *)
Definition lower_ascii (c : ascii) : ascii :=
  let n := N_of_ascii c in
  if ((65 <=? n) && (n <=? 90))%N then ascii_of_N (n + 32) else c.

Definition upper_ascii (c : ascii) : ascii :=
  let n := N_of_ascii c in
  if ((97 <=? n) && (n <=? 122))%N then ascii_of_N (n - 32) else c.

(** [s.lower()] and [s.upper()]. *)
Fixpoint lower (s : string) : string :=
  match s with
  | EmptyString => EmptyString
  | String c s' => String (lower_ascii c) (lower s')
  end.

Fixpoint upper (s : string) : string :=
  match s with
  | EmptyString => EmptyString
  | String c s' => String (upper_ascii c) (upper s')
  end.

(** [s.endswith(suffix)]. *)
Fixpoint endswith (s suffix : string) : bool :=
  String.eqb s suffix ||
  match s with
  | EmptyString => false
  | String _ s' => endswith s' suffix
  end.

(** [sub in s]. *)
Fixpoint contains (sub s : string) : bool :=
  String.prefix sub s ||
  match s with
  | EmptyString => false
  | String _ s' => contains sub s'
  end.

(** [sep.join(parts)]. *)
Definition join (sep : string) (parts : list string) : string :=
  String.concat sep parts.

(** [str(n)] for an [int]. *)
Definition of_int (n : Z) : string :=
  DecimalString.NilZero.string_of_int (Z.to_int n).

(** [c * n] for a one-character string [c]. *)
Fixpoint repeat (c : ascii) (n : nat) : string :=
  match n with
  | O => EmptyString
  | S n' => String c (repeat c n')
  end.

(** Right-alignment in a field of [width] characters ([>width]). *)
Definition rjust (width : nat) (s : string) : string :=
  repeat " "%char (width - String.length s) +:+ s.

(** A truthy [str] is a non-empty one. *)
Definition truthy (s : string) : bool :=
  match s with EmptyString => false | _ => true end.

(** The order [sorted] uses on [str]: lexicographic on code points. *)
Definition le (s1 s2 : string) : Prop := String.leb s1 s2 = true.

#[export] Instance le_dec : RelDecision le.
Proof. intros s1 s2. unfold le. apply _. Defined.

(** [sorted(l)] for a list of strings. *)
Definition sorted (l : list string) : list string := merge_sort le l.

End PyStr.

(** ** The ledger as the GnuCash binding exposes it *)

Record Commodity := mkCommodity {
  get_mnemonic : string;
  get_fraction : Z
}.

Record GncNumeric := mkGncNumeric {
  num : Z;
  denom : Z
}.

#[local] Set Warnings "-register-all".

(** An account with the attributes the tools read.  [get_full_name] is what
    the binding reports for the account (the dot-separated path);
    [get_children] are its immediate children, in the store's order. *)
Inductive Account : Type := mkAccount {
  acc_guid : positive;
  name : string;
  get_full_name : string;
  GetType : Z;
  GetCommodity : option Commodity;
  GetDescription : string;
  GetCode : string;
  get_children : list Account
}.

(** [account.get_descendants()]: every account below [account], each child
    followed by its own descendants. *)
Fixpoint get_descendants (a : Account) : list Account :=
  (fix walk (cs : list Account) : list Account :=
     match cs with
     | [] => []
     | c :: rest => c :: (get_descendants c ++ walk rest)
     end) (get_children a).

(** ** Account resolution *)

(** The first loop of [find_account]: exact match or dotted-suffix match. *)
Definition exact_or_suffix (account_name : string) (acc : Account) : bool :=
  let full_name := get_full_name acc in
  String.eqb full_name account_name
  || PyStr.endswith full_name ("." +:+ account_name).

(** The second loop: case-insensitive partial match. *)
Definition partial_match (account_lower : string) (acc : Account) : bool :=
  PyStr.contains account_lower (PyStr.lower (get_full_name acc)).

Definition find_account (root : Account) (account_name : string)
  : option Account :=
  match find (exact_or_suffix account_name) (get_descendants root) with
  | Some acc => Some acc
  | None =>
      let account_lower := PyStr.lower account_name in
      find (partial_match account_lower) (get_descendants root)
  end.

(** ** Exceptions

    A computation that may raise carries the text [str(e)] of the exception;
    every handler of [server.py] is a catch-all that only prints that text. *)

Inductive Exc (A : Type) : Type :=
| Return (a : A)
| Raise (msg : string).
Arguments Return {A} a.
Arguments Raise {A} msg.

Definition exc_bind {A B : Type} (m : Exc A) (k : A -> Exc B) : Exc B :=
  match m with
  | Return a => k a
  | Raise msg => Raise msg
  end.

Notation "x <- m ;;; k" := (exc_bind m (fun x => k))
  (at level 100, m at next level, right associativity).

(** ** Python floats and the conversions the tools use *)

Module PyFloat.

(** The integer nearest to [m * 2^e] for [0 <= m], ties to the even one. *)
Definition round_half_even (m e : Z) : Z :=
  if 0 <=? e then m * 2 ^ e
  else
    let d := 2 ^ (- e) in
    let q := m / d in
    match Z.compare (2 * (m mod d)) d with
    | Lt => q
    | Gt => q + 1
    | Eq => if Z.even q then q else q + 1
    end.

(** [float(n)] for an [int]: the nearest binary64 value; a magnitude past
    the largest finite float is an [OverflowError]. *)
Definition of_int (n : Z) : Exc float :=
  let f := SF2Prim (binary_normalize prec emax n 0 false) in
  if is_infinity f then Raise "int too large to convert to float"
  else Return f.

(** [x * n] with [n] an [int]: the [int] is converted first. *)
Definition mul_int (x : float) (n : Z) : Exc float :=
  y <- of_int n ;;; Return (PrimFloat.mul x y).

(** [x / y]: a zero divisor is a [ZeroDivisionError]. *)
Definition truediv (x y : float) : Exc float :=
  if is_zero y then Raise "float division by zero"
  else Return (PrimFloat.div x y).

(** [float(n) / float(d)], the conversion of a [GncNumeric] for display. *)
Definition ratio (n d : Z) : Exc float :=
  x <- of_int n ;;; y <- of_int d ;;; truediv x y.

(** [round(x)]: the nearest [int], ties to even; infinities and NaN raise. *)
Definition round (x : float) : Exc Z :=
  match Prim2SF x with
  | S754_zero _ => Return 0
  | S754_infinity _ => Raise "cannot convert float infinity to integer"
  | S754_nan => Raise "cannot convert float NaN to integer"
  | S754_finite s m e =>
      let n := round_half_even (Z.pos m) e in
      Return (if s then - n else n)
  end.

(** [x <= 0]. *)
Definition le_zero (x : float) : bool := PrimFloat.leb x PrimFloat.zero.

Definition two_digits (n : Z) : string :=
  if n <? 10 then "0" +:+ PyStr.of_int n else PyStr.of_int n.

(** [format(x, ".2f")]: the exact value rounded to hundredths, ties to
    even; the sign is kept even when the digits are all zero. *)
Definition format_2f (x : float) : string :=
  match Prim2SF x with
  | S754_nan => "nan"
  | S754_infinity s => if s then "-inf" else "inf"
  | S754_zero s => if s then "-0.00" else "0.00"
  | S754_finite s m e =>
      let n := round_half_even (Z.pos m * 100) e in
      (if s then "-" else "") +:+ PyStr.of_int (n / 100) +:+ "."
        +:+ two_digits (n mod 100)
  end.

End PyFloat.

(** ** Dates *)

Record datetime := mkDatetime {
  year : Z;
  month : Z;
  day : Z;
  seconds_of_day : Z
}.

Module PyDate.

Definition digit (c : ascii) : option Z :=
  let n := N_of_ascii c in
  if ((48 <=? n) && (n <=? 57))%N then Some (Z.of_N n - 48) else None.

Definition digit_in (lo hi : Z) (c : ascii) : option Z :=
  match digit c with
  | Some d => if (lo <=? d) && (d <=? hi) then Some d else None
  | None => None
  end.

(** [%Y]: exactly four digits. *)
Definition parse_year (l : list ascii) : option (Z * list ascii) :=
  match l with
  | y1 :: y2 :: y3 :: y4 :: rest =>
      match digit y1, digit y2, digit y3, digit y4 with
      | Some a, Some b, Some c, Some d =>
          Some (1000 * a + 100 * b + 10 * c + d, rest)
      | _, _, _, _ => None
      end
  | _ => None
  end.

(** A literal [-] of the format. *)
Definition parse_dash (l : list ascii) : option (list ascii) :=
  match l with
  | c :: rest => if Ascii.eqb c "-" then Some rest else None
  | [] => None
  end.

(** [%m] followed by the format's [-]: the alternatives [1[0-2]],
    [0[1-9]], [[1-9]] in that order; the first one after which a [-]
    follows is taken. *)
Definition parse_month_dash (l : list ascii) : option (Z * list ascii) :=
  let two :=
    match l with
    | m1 :: m2 :: rest =>
        match digit_in 1 1 m1, digit_in 0 2 m2, digit_in 0 0 m1, digit_in 1 9 m2 with
        | Some _, Some d, _, _ => option_map (pair (10 + d)) (parse_dash rest)
        | _, _, Some _, Some d => option_map (pair d) (parse_dash rest)
        | _, _, _, _ => None
        end
    | _ => None
    end in
  match two with
  | Some r => Some r
  | None =>
      match l with
      | m1 :: rest =>
          match digit_in 1 9 m1 with
          | Some d => option_map (pair d) (parse_dash rest)
          | None => None
          end
      | [] => None
      end
  end.

(** [%d] at the end of the format: the alternatives [3[01]], [[12]\d],
    [0[1-9]], [[1-9]], [ [1-9]] in that order; the first that matches is
    taken and what it leaves is returned. *)
Definition parse_day (l : list ascii) : option (Z * list ascii) :=
  match l with
  | [] => None
  | d1 :: tl =>
      let one := option_map (fun d => (d, tl)) (digit_in 1 9 d1) in
      match tl with
      | [] => one
      | d2 :: rest =>
          match digit_in 3 3 d1, digit_in 0 1 d2 with
          | Some _, Some d => Some (30 + d, rest)
          | _, _ =>
            match digit_in 1 2 d1, digit d2 with
            | Some a, Some d => Some (10 * a + d, rest)
            | _, _ =>
              match digit_in 0 0 d1, digit_in 1 9 d2 with
              | Some _, Some d => Some (d, rest)
              | _, _ =>
                match one with
                | Some r => Some r
                | None =>
                    if Ascii.eqb d1 " "
                    then option_map (fun d => (d, rest)) (digit_in 1 9 d2)
                    else None
                end
              end
            end
          end
      end
  end.

Definition is_leap (y : Z) : bool :=
  (y mod 4 =? 0) && (negb (y mod 100 =? 0) || (y mod 400 =? 0)).

Definition days_in_month (y m : Z) : Z :=
  if m =? 2 then (if is_leap y then 29 else 28)
  else if (m =? 4) || (m =? 6) || (m =? 9) || (m =? 11) then 30
  else 31.

(** [datetime.datetime.strptime(s, "%Y-%m-%d")]; [None] is a
    [ValueError]: no match, unconverted data, or no such calendar day. *)
Definition strptime (s : string) : option datetime :=
  match parse_year (list_ascii_of_string s) with
  | None => None
  | Some (y, l1) =>
      match parse_dash l1 with
      | None => None
      | Some l2 =>
          match parse_month_dash l2 with
          | None => None
          | Some (m, l3) =>
              match parse_day l3 with
              | Some (d, []) =>
                  if (1 <=? y) && (d <=? days_in_month y m)
                  then Some (mkDatetime y m d 0)
                  else None
              | _ => None
              end
          end
      end
  end.

Definition pad (width : nat) (n : Z) : string :=
  let s := PyStr.of_int n in
  PyStr.repeat "0"%char (width - String.length s) +:+ s.

(** [d.strftime("%Y-%m-%d")]. *)
Definition strftime (d : datetime) : string :=
  pad 4 (year d) +:+ "-" +:+ pad 2 (month d) +:+ "-" +:+ pad 2 (day d).

End PyDate.

(** ** Splits, transactions and the book *)

Inductive ReconcileState := NotReconciled | Cleared | Reconciled.

(** A split refers to its transaction and to its account by identity: the
    index of the transaction in the book, the GUID of the account. *)
Record Split := mkSplit {
  split_parent : option nat;
  split_account : option positive;
  GetValue : GncNumeric;
  GetAmount : GncNumeric;
  GetMemo : string;
  GetReconcile : ReconcileState
}.

Record Transaction := mkTransaction {
  GetCurrency : option Commodity;
  tx_description : string;
  tx_date_entered : datetime;
  GetDate : datetime;
  tx_splits : list nat;
  tx_in_edit : bool
}.

(** The in-memory book of a session: the account tree and every transaction
    and split object created in it, in creation order. *)
Record Book := mkBook {
  get_root_account : Account;
  book_transactions : list Transaction;
  book_splits : list Split
}.

Definition epoch : datetime := mkDatetime 1970 1 1 0.
Definition gnc_numeric_zero : GncNumeric := mkGncNumeric 0 1.

Module Store.

Definition with_transactions (f : list Transaction -> list Transaction) (b : Book) : Book :=
  mkBook (get_root_account b) (f (book_transactions b)) (book_splits b).

Definition with_splits (f : list Split -> list Split) (b : Book) : Book :=
  mkBook (get_root_account b) (book_transactions b) (f (book_splits b)).

(** [Transaction(book)]: a fresh, empty transaction object. *)
Definition Transaction_new (b : Book) : nat * Book :=
  (length (book_transactions b),
   with_transactions
     (fun txs => txs ++ [mkTransaction None "" epoch epoch [] false]) b).

(** [Split(book)]: a fresh split, with no parent and no account yet. *)
Definition Split_new (b : Book) : nat * Book :=
  (length (book_splits b),
   with_splits
     (fun ss => ss ++ [mkSplit None None gnc_numeric_zero gnc_numeric_zero ""
                         NotReconciled]) b).

Definition BeginEdit (tx : nat) : Book -> Book :=
  with_transactions (alter (fun t =>
    mkTransaction (GetCurrency t) (tx_description t) (tx_date_entered t)
      (GetDate t) (tx_splits t) true) tx).

Definition CommitEdit (tx : nat) : Book -> Book :=
  with_transactions (alter (fun t =>
    mkTransaction (GetCurrency t) (tx_description t) (tx_date_entered t)
      (GetDate t) (tx_splits t) false) tx).

Definition SetCurrency (tx : nat) (c : Commodity) : Book -> Book :=
  with_transactions (alter (fun t =>
    mkTransaction (Some c) (tx_description t) (tx_date_entered t)
      (GetDate t) (tx_splits t) (tx_in_edit t)) tx).

Definition SetDescription (tx : nat) (d : string) : Book -> Book :=
  with_transactions (alter (fun t =>
    mkTransaction (GetCurrency t) d (tx_date_entered t)
      (GetDate t) (tx_splits t) (tx_in_edit t)) tx).

Definition SetDateEnteredSecs (tx : nat) (d : datetime) : Book -> Book :=
  with_transactions (alter (fun t =>
    mkTransaction (GetCurrency t) (tx_description t) d
      (GetDate t) (tx_splits t) (tx_in_edit t)) tx).

Definition SetDatePostedSecs (tx : nat) (d : datetime) : Book -> Book :=
  with_transactions (alter (fun t =>
    mkTransaction (GetCurrency t) (tx_description t) (tx_date_entered t)
      d (tx_splits t) (tx_in_edit t)) tx).

(** [split.SetParent(tx)]: the split joins the end of [tx]'s split list. *)
Definition SetParent (s : nat) (tx : nat) (b : Book) : Book :=
  with_transactions (alter (fun t =>
    mkTransaction (GetCurrency t) (tx_description t) (tx_date_entered t)
      (GetDate t) (tx_splits t ++ [s]) (tx_in_edit t)) tx)
  (with_splits (alter (fun x =>
    mkSplit (Some tx) (split_account x) (GetValue x) (GetAmount x)
      (GetMemo x) (GetReconcile x)) s) b).

Definition SetAccount (s : nat) (acc : Account) : Book -> Book :=
  with_splits (alter (fun x =>
    mkSplit (split_parent x) (Some (acc_guid acc)) (GetValue x) (GetAmount x)
      (GetMemo x) (GetReconcile x)) s).

Definition SetValue (s : nat) (v : GncNumeric) : Book -> Book :=
  with_splits (alter (fun x =>
    mkSplit (split_parent x) (split_account x) v (GetAmount x)
      (GetMemo x) (GetReconcile x)) s).

Definition SetAmount (s : nat) (v : GncNumeric) : Book -> Book :=
  with_splits (alter (fun x =>
    mkSplit (split_parent x) (split_account x) (GetValue x) v
      (GetMemo x) (GetReconcile x)) s).

Definition SetMemo (s : nat) (m : string) : Book -> Book :=
  with_splits (alter (fun x =>
    mkSplit (split_parent x) (split_account x) (GetValue x) (GetAmount x)
      m (GetReconcile x)) s).

(** [account.GetSplitList()]: the splits posted to the account, here in
    the order in which they were created. *)
Definition GetSplitList (b : Book) (acc : Account) : list Split :=
  filter (fun s => split_account s = Some (acc_guid acc)) (book_splits b).

(** Exact sum of two amounts. *)
Definition gnc_numeric_add (x y : GncNumeric) : GncNumeric :=
  if denom x =? denom y then mkGncNumeric (num x + num y) (denom x)
  else mkGncNumeric (num x * denom y + num y * denom x) (denom x * denom y).

Definition gnc_numeric_zero_p (x : GncNumeric) : bool := num x =? 0.

Definition sum_amounts (ss : list Split) : GncNumeric :=
  foldl (fun acc s => gnc_numeric_add acc (GetAmount s)) gnc_numeric_zero ss.

(** The three balances of an account: over all of its splits, over the
    cleared and reconciled ones, over the reconciled ones. *)
Definition GetBalance (b : Book) (acc : Account) : GncNumeric :=
  sum_amounts (GetSplitList b acc).

Definition is_cleared (s : Split) : bool :=
  match GetReconcile s with NotReconciled => false | _ => true end.

Definition is_reconciled (s : Split) : bool :=
  match GetReconcile s with Reconciled => true | _ => false end.

Definition GetClearedBalance (b : Book) (acc : Account) : GncNumeric :=
  sum_amounts (List.filter is_cleared (GetSplitList b acc)).

Definition GetReconciledBalance (b : Book) (acc : Account) : GncNumeric :=
  sum_amounts (List.filter is_reconciled (GetSplitList b acc)).

(** The imbalance of a transaction: the sum of its splits' values. *)
Definition GetImbalanceValue (b : Book) (t : Transaction) : GncNumeric :=
  foldl (fun acc i =>
           match book_splits b !! i with
           | Some s => gnc_numeric_add acc (GetValue s)
           | None => acc
           end) gnc_numeric_zero (tx_splits t).

End Store.

(** ** The process: module globals and the host *)

Inductive SessionOpenMode := SESSION_NORMAL_OPEN | SESSION_READ_ONLY.

Record Session := mkSession {
  session_path : string;
  session_mode : SessionOpenMode;
  book : Book
}.

(** What [subprocess.run(["pgrep", "-x", "gnucash"], timeout=5)] does: it
    completes with a return code, or raises (no [pgrep], timeout expired). *)
Inductive ProbeOutcome :=
| Completed (returncode : Z)
| ProbeRaised.

Record World := mkWorld {
  current_session : option Session;
  write_mode : bool;
  configured_file : option string;
  files : gset string;          (* the paths that exist *)
  undeletable : gset string;    (* paths [os.remove] fails on *)
  stored : gmap string Book;    (* the ledger each store file holds *)
  pgrep : ProbeOutcome;
  clock : datetime;
  stderr : list string
}.

Definition set_session (s : option Session) (w : World) : World :=
  mkWorld s (write_mode w) (configured_file w) (files w) (undeletable w)
    (stored w) (pgrep w) (clock w) (stderr w).

Definition set_files (fs : gset string) (w : World) : World :=
  mkWorld (current_session w) (write_mode w) (configured_file w) fs
    (undeletable w) (stored w) (pgrep w) (clock w) (stderr w).

(** [print(msg, file=sys.stderr)]. *)
Definition print_stderr (msg : string) (w : World) : World :=
  mkWorld (current_session w) (write_mode w) (configured_file w) (files w)
    (undeletable w) (stored w) (pgrep w) (clock w) (stderr w ++ [msg]).

Definition nl : string := String "010"%char EmptyString.

Module os.

(** [os.path.exists(p)]. *)
Definition path_exists (p : string) (w : World) : bool :=
  bool_decide (p ∈ files w).

(** [os.remove(p)]. *)
Definition remove (p : string) (w : World) : Exc World :=
  if bool_decide (p ∈ files w) then
    if bool_decide (p ∈ undeletable w)
    then Raise ("[Errno 13] Permission denied: '" +:+ p +:+ "'")
    else Return (set_files (files w ∖ {[p]}) w)
  else Raise ("[Errno 2] No such file or directory: '" +:+ p +:+ "'").

End os.

(** The session object of the binding.  A normal open takes the store's lock
    file and fails when it is already there; a read-only open takes no lock.
    Ending a session releases the lock it took. *)
Module GncSession.

Definition lock_of (path : string) : string := path +:+ ".LCK".

Definition open (path : string) (mode : SessionOpenMode) (w : World)
  : Exc (Session * World) :=
  match mode with
  | SESSION_NORMAL_OPEN =>
      if os.path_exists (lock_of path) w
      then Raise "call to begin resulted in the following errors, ('ERR_BACKEND_LOCKED',)"
      else
        match stored w !! path with
        | None => Raise "call to load resulted in the following errors, ('ERR_FILEIO_UNKNOWN_FILE_TYPE',)"
        | Some b =>
            Return (mkSession path mode b,
                    set_files (files w ∪ {[lock_of path]}) w)
        end
  | SESSION_READ_ONLY =>
      match stored w !! path with
      | None => Raise "call to load resulted in the following errors, ('ERR_FILEIO_UNKNOWN_FILE_TYPE',)"
      | Some b => Return (mkSession path mode b, w)
      end
  end.

Definition end_ (s : Session) (w : World) : World :=
  match session_mode s with
  | SESSION_NORMAL_OPEN => set_files (files w ∖ {[lock_of (session_path s)]}) w
  | SESSION_READ_ONLY => w
  end.

End GncSession.

(** ** Lock handling *)

Definition get_no_file_error (w : World) : string :=
  match configured_file w with
  | Some f =>
      if PyStr.truthy f
      then "Error: No GnuCash file is open. Use open_file with path: " +:+ f
      else "Error: No GnuCash file is open. Use open_file to open a file first."
  | None => "Error: No GnuCash file is open. Use open_file to open a file first."
  end.

Definition is_gnucash_running (w : World) : bool :=
  match pgrep w with
  | Completed returncode => returncode =? 0
  | ProbeRaised => false  (* Assume not running if we can't check *)
  end.

Definition remove_stale_lock (file_path : string) (w : World) : bool * World :=
  let lock_path := file_path +:+ ".LCK" in
  if negb (os.path_exists lock_path w) then (true, w)
  else if is_gnucash_running w then (false, w)
  else
    match os.remove lock_path w with
    | Return w' =>
        (true, print_stderr ("Removed stale lock file: " +:+ lock_path) w')
    | Raise e =>
        (false, print_stderr ("Failed to remove lock file: " +:+ e) w)
    end.

(** ** Session tools *)

Definition open_file (file_path : string) (break_lock : bool) (w : World)
  : string * World :=
  (* Close existing session if any *)
  let w :=
    match current_session w with
    | Some s => set_session None (GncSession.end_ s w)
    | None => w
    end in
  if negb (os.path_exists file_path w)
  then ("Error: File not found: " +:+ file_path, w)
  else
    (* Handle lock breaking if requested *)
    let blocked_or_world : option World :=
      if break_lock then
        let lock_path := file_path +:+ ".LCK" in
        if os.path_exists lock_path w then
          if is_gnucash_running w then None
          else Some (snd (remove_stale_lock file_path w))
        else Some w
      else Some w in
    match blocked_or_world with
    | None =>
        ("Error: Cannot break lock - GnuCash application is currently running. Close GnuCash first.", w)
    | Some w =>
        let mode := if write_mode w then SESSION_NORMAL_OPEN else SESSION_READ_ONLY in
        match GncSession.open file_path mode w with
        | Return (s, w') =>
            ((if write_mode w
              then "Successfully opened GnuCash file (read-write): "
              else "Successfully opened GnuCash file (read-only): ") +:+ file_path,
             set_session (Some s) w')
        | Raise error_msg =>
            if PyStr.contains "LOCKED" (PyStr.upper error_msg)
            then ("Error opening file: " +:+ error_msg
                    +:+ ". Try with break_lock=True if GnuCash is not running.", w)
            else ("Error opening file: " +:+ error_msg, w)
        end
    end.

Definition close_file (w : World) : string * World :=
  match current_session w with
  | Some s => ("File closed successfully.", set_session None (GncSession.end_ s w))
  | None => ("No file is currently open.", w)
  end.

(** ** Read tools *)

Definition type_map : gmap Z string :=
  list_to_map
    [ (0, "BANK"); (1, "CASH"); (2, "ASSET"); (3, "CREDIT"); (4, "LIABILITY");
      (5, "STOCK"); (6, "MUTUAL"); (7, "CURRENCY"); (8, "INCOME");
      (9, "EXPENSE"); (10, "EQUITY"); (11, "RECEIVABLE"); (12, "PAYABLE");
      (13, "ROOT"); (14, "TRADING") ].

Definition get_account_type_name (type_code : Z) : string :=
  default ("UNKNOWN(" +:+ PyStr.of_int type_code +:+ ")") (type_map !! type_code).

(** One line of [list_accounts] and [search_accounts]. *)
Definition account_line (acc : Account) : string :=
  get_full_name acc +:+ " (" +:+ get_account_type_name (GetType acc) +:+ ")".

Definition list_accounts (w : World) : string * World :=
  match current_session w with
  | None => (get_no_file_error w, w)
  | Some s =>
      let root := get_root_account (book s) in
      let accounts := map account_line (get_descendants root) in
      (PyStr.join nl (PyStr.sorted accounts), w)
  end.

(** The first loop of the search the read tools carry inline
    ([get_account_balance], [get_transactions], [get_account_info]):
    [full_name == account_name or full_name.endswith(account_name)]. *)
Definition exact_or_endswith (account_name : string) (acc : Account) : bool :=
  let full_name := get_full_name acc in
  String.eqb full_name account_name || PyStr.endswith full_name account_name.

(** That inline search, the same text in the three tools. *)
Definition search_target (root : Account) (account_name : string)
  : option Account :=
  match find (exact_or_endswith account_name) (get_descendants root) with
  | Some acc => Some acc
  | None =>
      let account_lower := PyStr.lower account_name in
      find (partial_match account_lower) (get_descendants root)
  end.

Definition currency_of (acc : Account) : string :=
  match GetCommodity acc with
  | Some commodity => get_mnemonic commodity
  | None => "?"
  end.

(** [float(x.num()) / float(x.denom())]. *)
Definition to_decimal (x : GncNumeric) : Exc float :=
  PyFloat.ratio (num x) (denom x).

Definition not_found (account_name : string) : string :=
  "Error: Account '" +:+ account_name +:+ "' not found.".

Definition get_account_balance (account_name : string) (w : World)
  : string * World :=
  match current_session w with
  | None => (get_no_file_error w, w)
  | Some s =>
      let root := get_root_account (book s) in
      match search_target root account_name with
      | None => (not_found account_name, w)
      | Some target_account =>
          let balance := Store.GetBalance (book s) target_account in
          let currency := currency_of target_account in
          match to_decimal balance with
          | Return balance_decimal =>
              ("Balance of " +:+ get_full_name target_account +:+ ": "
                 +:+ PyFloat.format_2f balance_decimal +:+ " " +:+ currency, w)
          | Raise e => ("Error getting balance: " +:+ e, w)
          end
      end
  end.

(** [l[start:]] for a Python list and any [int] start. *)
Definition slice_from {A : Type} (start : Z) (l : list A) : list A :=
  let n := Z.of_nat (length l) in
  let start := if start <? 0 then Z.max (start + n) 0 else Z.min start n in
  drop (Z.to_nat start) l.

(** The body of the loop of [get_transactions]: the line of one split. *)
Definition transaction_line (b : Book) (target_account : Account) (split : Split)
  : Exc string :=
  match split_parent split ≫= (fun i => book_transactions b !! i) with
  | None => Raise "'NoneType' object has no attribute 'GetDate'"
  | Some trans =>
      let date := PyDate.strftime (GetDate trans) in
      let desc := tx_description trans in
      value_decimal <- to_decimal (GetValue split) ;;;
      Return (date +:+ " | " +:+ PyStr.rjust 10 (PyFloat.format_2f value_decimal)
                +:+ " " +:+ currency_of target_account +:+ " | " +:+ desc)
  end.

(** A [for] loop that appends one computed line per element and stops at the
    first exception. *)
Fixpoint for_each {A B : Type} (f : A -> Exc B) (l : list A) : Exc (list B) :=
  match l with
  | [] => Return []
  | x :: rest => y <- f x ;;; ys <- for_each f rest ;;; Return (y :: ys)
  end.

Definition get_transactions (account_name : string) (limit : Z) (w : World)
  : string * World :=
  match current_session w with
  | None => (get_no_file_error w, w)
  | Some s =>
      let root := get_root_account (book s) in
      match search_target root account_name with
      | None => (not_found account_name, w)
      | Some target_account =>
          let splits := Store.GetSplitList (book s) target_account in
          match splits with
          | [] => ("No transactions found for " +:+ get_full_name target_account +:+ ".", w)
          | _ =>
              match for_each (transaction_line (book s) target_account)
                      (slice_from (- limit) splits) with
              | Return transactions =>
                  let header := "Transactions for " +:+ get_full_name target_account
                                  +:+ ":" +:+ nl +:+ PyStr.repeat "-"%char 60 +:+ nl in
                  (header +:+ PyStr.join nl transactions, w)
              | Raise e => ("Error getting transactions: " +:+ e, w)
              end
          end
      end
  end.

(** [x or "(none)"]. *)
Definition or_none (x : string) : string :=
  if PyStr.truthy x then x else "(none)".

Definition get_account_info (account_name : string) (w : World)
  : string * World :=
  match current_session w with
  | None => (get_no_file_error w, w)
  | Some s =>
      let root := get_root_account (book s) in
      match search_target root account_name with
      | None => (not_found account_name, w)
      | Some target_account =>
          let full_name := get_full_name target_account in
          let type_name := get_account_type_name (GetType target_account) in
          let description := or_none (GetDescription target_account) in
          let code := or_none (GetCode target_account) in
          let currency := currency_of target_account in
          let info :=
            balance_decimal <- to_decimal (Store.GetBalance (book s) target_account) ;;;
            cleared_decimal <- to_decimal (Store.GetClearedBalance (book s) target_account) ;;;
            reconciled_decimal <- to_decimal (Store.GetReconciledBalance (book s) target_account) ;;;
            let num_splits := length (Store.GetSplitList (book s) target_account) in
            let children := map name (get_children target_account) in
            let children_str :=
              match children with [] => "(none)" | _ => PyStr.join ", " children end in
            Return ("Account: " +:+ full_name +:+ nl
              +:+ "Type: " +:+ type_name +:+ nl
              +:+ "Description: " +:+ description +:+ nl
              +:+ "Code: " +:+ code +:+ nl
              +:+ "Currency: " +:+ currency +:+ nl
              +:+ "Balance: " +:+ PyFloat.format_2f balance_decimal +:+ " " +:+ currency +:+ nl
              +:+ "Cleared Balance: " +:+ PyFloat.format_2f cleared_decimal +:+ " " +:+ currency +:+ nl
              +:+ "Reconciled Balance: " +:+ PyFloat.format_2f reconciled_decimal +:+ " " +:+ currency +:+ nl
              +:+ "Number of Transactions: " +:+ PyStr.of_int (Z.of_nat num_splits) +:+ nl
              +:+ "Child Accounts: " +:+ children_str) in
          match info with
          | Return text => (text, w)
          | Raise e => ("Error getting account info: " +:+ e, w)
          end
      end
  end.

(** ** The write tool *)

Definition success_message (amount : float) (commodity : Commodity)
    (source_account dest_account : Account) (description : string)
    (tx_date : datetime) : string :=
  "Transaction created successfully:" +:+ nl +:+ "  "
    +:+ PyFloat.format_2f amount +:+ " " +:+ get_mnemonic commodity
    +:+ " from " +:+ get_full_name source_account
    +:+ " to " +:+ get_full_name dest_account +:+ nl
    +:+ "  Description: " +:+ description +:+ nl
    +:+ "  Date: " +:+ PyDate.strftime tx_date +:+ nl +:+ nl
    +:+ "Note: Use save_file to persist changes to disk.".

Definition currency_mismatch (commodity dest_commodity : Commodity) : string :=
  "Error: Account currencies don't match (" +:+ get_mnemonic commodity
    +:+ " vs " +:+ get_mnemonic dest_commodity
    +:+ "). Multi-currency transactions are not supported.".

(** The construction part of [add_transaction], from [Transaction(book)] to
    [tx.CommitEdit()]; it returns the new transaction with the book. *)
Definition build_transaction (commodity : Commodity)
    (source_account dest_account : Account) (amount_int fraction : Z)
    (description : string) (now tx_date : datetime) (memo : option string)
    (b : Book) : nat * Book :=
  let '(tx, b) := Store.Transaction_new b in
  let b := Store.BeginEdit tx b in
  let b := Store.SetCurrency tx commodity b in
  let b := Store.SetDescription tx description b in
  let b := Store.SetDateEnteredSecs tx now b in
  let b := Store.SetDatePostedSecs tx tx_date b in
  (* Create the source split (negative - money leaving) *)
  let '(split_from, b) := Store.Split_new b in
  let b := Store.SetParent split_from tx b in
  let b := Store.SetAccount split_from source_account b in
  let b := Store.SetValue split_from (mkGncNumeric (- amount_int) fraction) b in
  let b := Store.SetAmount split_from (mkGncNumeric (- amount_int) fraction) b in
  let b := match memo with
           | Some m => if PyStr.truthy m then Store.SetMemo split_from m b else b
           | None => b
           end in
  (* Create the destination split (positive - money entering) *)
  let '(split_to, b) := Store.Split_new b in
  let b := Store.SetParent split_to tx b in
  let b := Store.SetAccount split_to dest_account b in
  let b := Store.SetValue split_to (mkGncNumeric amount_int fraction) b in
  let b := Store.SetAmount split_to (mkGncNumeric amount_int fraction) b in
  let b := match memo with
           | Some m => if PyStr.truthy m then Store.SetMemo split_to m b else b
           | None => b
           end in
  (tx, Store.CommitEdit tx b).

Definition add_transaction (from_account to_account : string) (amount : float)
    (description : string) (date memo : option string) (w : World)
  : string * World :=
  match current_session w with
  | None => (get_no_file_error w, w)
  | Some s =>
      if PyFloat.le_zero amount
      then ("Error: Amount must be a positive number.", w)
      else
        let root := get_root_account (book s) in
        (* Find both accounts *)
        match find_account root from_account with
        | None => ("Error: Source account '" +:+ from_account +:+ "' not found.", w)
        | Some source_account =>
          match find_account root to_account with
          | None => ("Error: Destination account '" +:+ to_account +:+ "' not found.", w)
          | Some dest_account =>
            (* Get the currency from the source account *)
            match GetCommodity source_account with
            | None => ("Error: Source account has no currency/commodity set.", w)
            | Some commodity =>
              (* Verify both accounts use the same currency *)
              let mismatch :=
                match GetCommodity dest_account with
                | Some dest_commodity =>
                    if negb (String.eqb (get_mnemonic commodity) (get_mnemonic dest_commodity))
                    then Some (currency_mismatch commodity dest_commodity)
                    else None
                | None => None
                end in
              match mismatch with
              | Some err => (err, w)
              | None =>
                (* Parse the date *)
                let parsed : option datetime :=
                  match date with
                  | Some d => if PyStr.truthy d then PyDate.strptime d else Some (clock w)
                  | None => Some (clock w)
                  end in
                match parsed with
                | None => ("Error: Invalid date format. Use YYYY-MM-DD.", w)
                | Some tx_date =>
                  (* Convert amount to GncNumeric *)
                  let fraction := get_fraction commodity in
                  match scaled <- PyFloat.mul_int amount fraction ;;; PyFloat.round scaled with
                  | Raise e => ("Error creating transaction: " +:+ e, w)
                  | Return amount_int =>
                    let '(_, b) :=
                      build_transaction commodity source_account dest_account
                        amount_int fraction description (clock w) tx_date memo (book s) in
                    (success_message amount commodity source_account dest_account
                       description tx_date,
                     set_session (Some (mkSession (session_path s) (session_mode s) b)) w)
                  end
                end
              end
            end
          end
        end
  end.

(** ** Saving, searching and the life of the process *)

Definition set_write_mode (b : bool) (w : World) : World :=
  mkWorld (current_session w) b (configured_file w) (files w) (undeletable w)
    (stored w) (pgrep w) (clock w) (stderr w).

Definition set_configured_file (f : option string) (w : World) : World :=
  mkWorld (current_session w) (write_mode w) f (files w) (undeletable w)
    (stored w) (pgrep w) (clock w) (stderr w).

Definition set_stored (m : gmap string Book) (w : World) : World :=
  mkWorld (current_session w) (write_mode w) (configured_file w) (files w)
    (undeletable w) m (pgrep w) (clock w) (stderr w).

(** [session.save()]: the book of the session becomes what the store file
    holds; a session opened read-only refuses to save. *)
Definition session_save (s : Session) (w : World) : Exc World :=
  match session_mode s with
  | SESSION_NORMAL_OPEN =>
      Return (set_stored (<[session_path s := book s]> (stored w)) w)
  | SESSION_READ_ONLY =>
      Raise "call to save resulted in the following errors, ('ERR_BACKEND_READONLY',)"
  end.

(** The exit handler registered with [atexit]. *)
Definition cleanup_session (w : World) : World :=
  match current_session w with
  | None => w
  | Some s =>
      let saved : Exc World :=
        (* Auto-save if in write mode *)
        if write_mode w
        then w' <- session_save s w ;;;
             Return (print_stderr "Changes saved automatically on exit." w')
        else Return w in
      let w :=
        match saved with
        | Return w' =>
            print_stderr "GnuCash session closed (lock released)."
              (GncSession.end_ s w')
        | Raise e => print_stderr ("Error during cleanup: " +:+ e) w
        end in
      set_session None w
  end.

Definition commit (w : World) : string * World :=
  match current_session w with
  | None => (get_no_file_error w, w)
  | Some s =>
      match session_save s w with
      | Return w' => ("Changes committed successfully.", w')
      | Raise e => ("Error committing changes: " +:+ e, w)
      end
  end.

Definition search_accounts (query : string) (w : World) : string * World :=
  match current_session w with
  | None => (get_no_file_error w, w)
  | Some s =>
      let root := get_root_account (book s) in
      let query_lower := PyStr.lower query in
      let matches :=
        map account_line
          (List.filter (partial_match query_lower) (get_descendants root)) in
      match matches with
      | [] => ("No accounts found matching '" +:+ query +:+ "'.", w)
      | _ =>
          (("Found " +:+ PyStr.of_int (Z.of_nat (length matches))
              +:+ " account(s):" +:+ nl) +:+ PyStr.join nl (PyStr.sorted matches), w)
      end
  end.

(** How [main] ends: the process exits with a code, or the server starts to
    serve the tools it has registered. *)
Inductive Startup :=
| Exited (code : Z)
| Serving (server_name : string) (tools : list string).

(** [sys.exit(code)]: the exit handler runs on the way out. *)
Definition sys_exit (code : Z) (w : World) : Startup * World :=
  (Exited code, cleanup_session w).

Definition read_tool_names : list string :=
  ["list_accounts"; "get_account_balance"; "get_transactions";
   "search_accounts"; "get_account_info"].

Definition write_tool_names : list string := ["add_transaction"; "commit"].

(** [main], from the parsed [--write] flag and the value of the environment
    variable [GNUCASH_FILE] up to the call of [mcp.run()]. *)
Definition main (args_write : bool) (GNUCASH_FILE : option string) (w : World)
  : Startup * World :=
  let w := set_write_mode args_write w in
  let server_name :=
    if write_mode w then "gnucash-mcp (read-write)" else "gnucash-mcp (read-only)" in
  let w :=
    print_stderr
      (if write_mode w
       then "GnuCash MCP Server running on stdio (WRITE MODE ENABLED)..."
       else "GnuCash MCP Server running on stdio (read-only)...") w in
  let not_set :=
    sys_exit 1
      (print_stderr
         "Configure with: claude mcp add gnucash ... -e GNUCASH_FILE=/path/to/file.gnucash"
         (print_stderr "Error: GNUCASH_FILE environment variable not set." w)) in
  match GNUCASH_FILE with
  | None => not_set
  | Some env_file =>
      if negb (PyStr.truthy env_file) then not_set
      else
        let w := set_configured_file (Some env_file) w in
        if negb (os.path_exists env_file w)
        then sys_exit 1
               (print_stderr ("Error: GnuCash file not found: " +:+ env_file) w)
        else
          let w := print_stderr ("Opening GnuCash file: " +:+ env_file) w in
          (* Auto-break stale locks if GnuCash is not running *)
          let lock_path := env_file +:+ ".LCK" in
          let blocked_or_world : option World :=
            if os.path_exists lock_path w then
              if is_gnucash_running w then None
              else Some (snd (remove_stale_lock env_file
                                (print_stderr "Removing stale lock file..." w)))
            else Some w in
          match blocked_or_world with
          | None =>
              sys_exit 1
                (print_stderr
                   "Error: Lock file exists and GnuCash is running. Close GnuCash first." w)
          | Some w =>
              let mode :=
                if write_mode w then SESSION_NORMAL_OPEN else SESSION_READ_ONLY in
              match GncSession.open env_file mode w with
              | Return (s, w') =>
                  let w :=
                    print_stderr
                      (if write_mode w
                       then "File opened successfully (read-write)."
                       else "File opened successfully (read-only).")
                      (set_session (Some s) w') in
                  (* Register read tools - these are always available;
                     register write tools only in write mode *)
                  (Serving server_name
                     (read_tool_names
                        ++ (if write_mode w then write_tool_names else [])), w)
              | Raise e =>
                  sys_exit 1 (print_stderr ("Error opening file: " +:+ e) w)
              end
          end
  end.

(** The text [get_transactions] builds from the splits it shows. *)
Definition render_transactions (b : Book) (target_account : Account)
    (shown : list Split) : string :=
  match for_each (transaction_line b target_account) shown with
  | Return transactions =>
      ("Transactions for " +:+ get_full_name target_account +:+ ":" +:+ nl
         +:+ PyStr.repeat "-"%char 60 +:+ nl) +:+ PyStr.join nl transactions
  | Raise e => "Error getting transactions: " +:+ e
  end.

(** The mode in which a process opens its store. *)
Definition mode_of (write : bool) : SessionOpenMode :=
  if write then SESSION_NORMAL_OPEN else SESSION_READ_ONLY.

(** ** Vocabulary of the statements *)





(** [acc] is the first element of [l], in order, that satisfies [P]. *)
Definition first_with {A : Type} (P : A -> Prop) (l : list A) (acc : A) : Prop :=
  exists before after,
    l = before ++ acc :: after /\ P acc /\ Forall (fun a => ~ P a) before.

(** The text [add_transaction] returns when it has created a transaction. *)
Definition created (msg : string) : bool :=
  String.prefix "Transaction created successfully" msg.

(** The process once [open_file] has closed the session that was open. *)
Definition after_close (w : World) : World :=
  match current_session w with
  | Some s => set_session None (GncSession.end_ s w)
  | None => w
  end.

Definition lock_blocked : string :=
  "Error: Cannot break lock - GnuCash application is currently running. Close GnuCash first.".

(** The memo a new split ends up with: the one given, or none. *)
Definition memo_text (memo : option string) : string := default "" memo.

(** The amount in the smallest unit of the commodity:
    [round(amount * fraction)]. *)
Definition scaled_amount (amount : float) (fraction : Z) : Exc Z :=
  scaled <- PyFloat.mul_int amount fraction ;;; PyFloat.round scaled.

(** The destination has no commodity, or one named like [commodity]. *)
Definition same_currency (commodity : Commodity) (dest_account : Account) : Prop :=
  match GetCommodity dest_account with
  | Some dest_commodity => get_mnemonic commodity = get_mnemonic dest_commodity
  | None => True
  end.

(** The date of the new transaction: the one given, parsed, or today. *)
Definition requested_date (date : option string) (w : World) : option datetime :=
  match date with
  | Some d => if PyStr.truthy d then PyDate.strptime d else Some (clock w)
  | None => Some (clock w)
  end.

(** The last step of [open_file]: the session constructor is called in the
    mode of the process and its exception, if any, is turned into text. *)
Definition open_store (file_path : string) (w : World) : string * World :=
  let mode := if write_mode w then SESSION_NORMAL_OPEN else SESSION_READ_ONLY in
  match GncSession.open file_path mode w with
  | Return (s, w') =>
      ((if write_mode w
        then "Successfully opened GnuCash file (read-write): "
        else "Successfully opened GnuCash file (read-only): ") +:+ file_path,
       set_session (Some s) w')
  | Raise error_msg =>
      if PyStr.contains "LOCKED" (PyStr.upper error_msg)
      then ("Error opening file: " +:+ error_msg
              +:+ ". Try with break_lock=True if GnuCash is not running.", w)
      else ("Error opening file: " +:+ error_msg, w)
  end.

(** Membership in the file sets of a concrete process, by evaluation. *)
Ltac by_evaluation :=
  apply (bool_decide_eq_true_1 _); vm_compute; reflexivity.

(** ** Sample ledgers *)

Module Sample.

Definition USD : Commodity := mkCommodity "USD" 100.
Definition EUR : Commodity := mkCommodity "EUR" 100.

Definition leaf (g : positive) (n full : string) (t : Z) (c : Commodity) : Account :=
  mkAccount g n full t (Some c) "" "" [].

Definition checking : Account := leaf 3 "Checking" "Assets.Bank.Checking" 0 USD.
Definition savings : Account := leaf 4 "Savings" "Assets.Bank.Savings" 0 USD.
Definition bank : Account :=
  mkAccount 2 "Bank" "Assets.Bank" 0 (Some USD) "" "" [checking; savings].
Definition assets : Account :=
  mkAccount 1 "Assets" "Assets" 2 (Some USD) "" "" [bank].
Definition euro : Account := leaf 5 "Euro" "Euro" 0 EUR.
Definition root : Account :=
  mkAccount 99 "Root Account" "" 13 None "" "" [assets; euro].

Definition ledger : Book := mkBook root [] [].

Definition today : datetime := mkDatetime 2026 11 4 43200.

(** A write-mode process with [/books/home.gnucash] open. *)
Definition w_open : World :=
  mkWorld (Some (mkSession "/books/home.gnucash" SESSION_NORMAL_OPEN ledger))
    true (Some "/books/home.gnucash")
    {[ "/books/home.gnucash"; "/books/home.gnucash.LCK" ]} ∅
    {[ "/books/home.gnucash" := ledger ]} (Completed 1) today [].

(** No session; a lock file was left behind next to the store. *)
Definition w_stale (probe : ProbeOutcome) (stuck : gset string) : World :=
  mkWorld None true (Some "/books/home.gnucash")
    {[ "/books/home.gnucash"; "/books/home.gnucash.LCK" ]} stuck
    {[ "/books/home.gnucash" := ledger ]} probe today [].


(** Two expense accounts, one's name ending in the other's. *)
Definition car_insurance : Account :=
  leaf 2 "Car Insurance" "Expenses.Car Insurance" 9 USD.
Definition insurance : Account := leaf 3 "Insurance" "Expenses.Insurance" 9 USD.
Definition root_insurance : Account :=
  mkAccount 99 "Root Account" "" 13 None "" ""
    [mkAccount 1 "Expenses" "Expenses" 9 (Some USD) "" "" [car_insurance; insurance]].

(** The process [w_open] after a transfer of 12.34 from checking to savings. *)
Definition w_paid : World :=
  snd (add_transaction "Checking" "Savings" 12.34%float "rent"
         (Some "2024-01-05") (Some "January") w_open).

(** The session that [w_paid] holds. *)
Definition paid_session : Session :=
  mkSession "/books/home.gnucash" SESSION_NORMAL_OPEN
    (snd (build_transaction USD checking savings 1234 100 "rent" today
            (mkDatetime 2024 1 5 0) (Some "January") ledger)).

Definition w_insurance : World :=
  mkWorld (Some (mkSession "/books/home.gnucash" SESSION_READ_ONLY
                   (mkBook root_insurance [] [])))
    false (Some "/books/home.gnucash") {[ "/books/home.gnucash" ]} ∅
    {[ "/books/home.gnucash" := mkBook root_insurance [] [] ]}
    (Completed 1) today [].

End Sample.

(** * Properties *)

(** ** What the string tests mean *)

Section StringFacts.


Lemma endswith_nil (suffix : string) :
  PyStr.endswith EmptyString suffix = String.eqb EmptyString suffix.
Proof. apply orb_false_r. Qed.

Lemma endswith_cons (c : ascii) (s suffix : string) :
  PyStr.endswith (String c s) suffix
  = String.eqb (String c s) suffix || PyStr.endswith s suffix.
Proof. reflexivity. Qed.



(** [s.endswith(suffix)] holds exactly when [s] is some text followed by
    [suffix]. *)
Lemma endswith_app (s suffix : string) :
  PyStr.endswith s suffix = true <-> exists p, s = p +:+ suffix.
Proof.
  induction s as [|c s IH].
  - rewrite endswith_nil, String.eqb_eq. split.
    + intros <-. now exists EmptyString.
    + intros [[|? ?] Hp]; simpl in Hp; [congruence | discriminate].
  - rewrite endswith_cons, orb_true_iff, String.eqb_eq, IH. split.
    + intros [<- | [p ->]]; [now exists EmptyString | now exists (String c p)].
    + intros [[|a p] Hp]; simpl in Hp; [now left | right].
      injection Hp as -> ->. now exists p.
Qed.





End StringFacts.

(** ** The order of [sorted] *)

Section StringOrder.

Lemma ascii_compare_eq (a b : ascii) : Ascii.compare a b = Eq -> a = b.
Proof.
  unfold Ascii.compare. intros H. apply N.compare_eq in H.
  rewrite <- (ascii_N_embedding a), <- (ascii_N_embedding b). now rewrite H.
Qed.

Lemma ascii_compare_lt_trans (a b c : ascii) :
  Ascii.compare a b = Lt -> Ascii.compare b c = Lt -> Ascii.compare a c = Lt.
Proof.
  unfold Ascii.compare. rewrite !N.compare_lt_iff. lia.
Qed.

Lemma string_compare_trans (s1 : string) : forall s2 s3,
  String.compare s1 s2 <> Gt -> String.compare s2 s3 <> Gt ->
  String.compare s1 s3 <> Gt.
Proof.
  induction s1 as [|a s1 IH]; intros [|b s2] [|c s3]; simpl; try congruence.
  destruct (Ascii.compare a b) eqn:Hab; try congruence;
    destruct (Ascii.compare b c) eqn:Hbc; try congruence.
  - apply ascii_compare_eq in Hab, Hbc. subst.
    assert (Ascii.compare c c = Eq) as ->
      by (unfold Ascii.compare; apply N.compare_refl).
    apply IH.
  - apply ascii_compare_eq in Hab. subst. now rewrite Hbc.
  - apply ascii_compare_eq in Hbc. subst. now rewrite Hab.
  - now rewrite (ascii_compare_lt_trans a b c).
Qed.

#[export] Instance str_le_total : Total PyStr.le.
Proof. intros s1 s2. apply String.leb_total. Qed.

#[export] Instance str_le_trans : Transitive PyStr.le.
Proof.
  intros s1 s2 s3. unfold PyStr.le, String.leb. intros H12 H23.
  pose proof (string_compare_trans s1 s2 s3) as H.
  destruct (String.compare s1 s2); try discriminate;
    destruct (String.compare s2 s3); try discriminate;
    destruct (String.compare s1 s3); try reflexivity;
    exfalso; apply H; congruence.
Qed.

#[export] Instance str_le_antisym : AntiSymm (=) PyStr.le.
Proof. intros s1 s2. apply String.leb_antisym. Qed.

(** [sorted] returns the one ordered arrangement of its argument, so the
    sorting algorithm behind it does not matter. *)
Lemma sorted_spec (l : list string) :
  StronglySorted PyStr.le (PyStr.sorted l) /\ PyStr.sorted l ≡ₚ l.
Proof.
  split.
  - apply StronglySorted_merge_sort; apply _.
  - apply merge_sort_Permutation.
Qed.

Lemma sorted_unique (l l' : list string) :
  StronglySorted PyStr.le l' -> l' ≡ₚ l -> l' = PyStr.sorted l.
Proof.
  intros Hs Hp. apply (StronglySorted_unique PyStr.le); trivial.
  - apply sorted_spec.
  - rewrite Hp. symmetry. apply sorted_spec.
Qed.

End StringOrder.

(** ** Account resolution *)

Section Resolution.

Lemma find_first {A : Type} (p : A -> bool) (l : list A) (x : A) :
  find p l = Some x ->
  exists before after,
    l = before ++ x :: after /\ p x = true
    /\ Forall (fun a => p a = false) before.
Proof.
  induction l as [|a l IH]; simpl; [discriminate|].
  destruct (p a) eqn:Hpa.
  - intros [= ->]. exists [], l. auto.
  - intros H. destruct (IH H) as (before & after & -> & Hx & Hb).
    exists (a :: before), after. auto.
Qed.




Lemma exact_or_endswith_iff (query : string) (acc : Account) :
  exact_or_endswith query acc = true
  <-> exists p, get_full_name acc = p +:+ query.
Proof.
  unfold exact_or_endswith.
  rewrite orb_true_iff, String.eqb_eq, endswith_app. split.
  - intros [H | H]; [now exists EmptyString | trivial].
  - auto.
Qed.

Lemma first_with_bool {A : Type} (p : A -> bool) (P : A -> Prop)
    (l : list A) (x : A) :
  (forall a, p a = true <-> P a) -> find p l = Some x -> first_with P l x.
Proof.
  intros HP H. destruct (find_first p l x H) as (before & after & -> & Hx & Hb).
  exists before, after. split; [reflexivity|]. split; [now apply HP|].
  eapply Forall_impl; [exact Hb|]. cbn. intros a Ha HPa.
  apply HP in HPa. congruence.
Qed.


End Resolution.

Section FindAccount.



(** The resolver examples of the spec (section 8). *)
Example resolve_checking :
  find_account Sample.root "Checking" = Some Sample.checking.
Proof. reflexivity. Qed.

Example resolve_bank :
  find (exact_or_suffix "bank") (get_descendants Sample.root) = None
  /\ find_account Sample.root "bank" = Some Sample.bank.
Proof. split; reflexivity. Qed.

Example resolve_nonexistent :
  find_account Sample.root "nonexistent" = None.
Proof. reflexivity. Qed.

(** C7, the code at a failing input: the read tools test
    [full_name.endswith(account_name)] with no dot, so [Insurance] is
    answered with [Expenses.Car Insurance], while the resolver of
    [find_account] answers [Expenses.Insurance]. *)
Lemma read_tools_take_undotted_suffix :
  search_target Sample.root_insurance "Insurance" = Some Sample.car_insurance
  /\ find_account Sample.root_insurance "Insurance" = Some Sample.insurance
  /\ fst (get_account_balance "Insurance" Sample.w_insurance)
     = "Balance of Expenses.Car Insurance: 0.00 USD"
  /\ fst (get_transactions "Insurance" 20 Sample.w_insurance)
     = "No transactions found for Expenses.Car Insurance."
  /\ String.prefix "Account: Expenses.Car Insurance"
       (fst (get_account_info "Insurance" Sample.w_insurance)) = true.
Proof. repeat split; vm_compute; reflexivity. Qed.

(** The first loop of the read tools accepts any full name that ends with
    the query, dotted or not. *)
Lemma search_target_first_pass (root : Account) (query : string) (acc : Account) :
  find (exact_or_endswith query) (get_descendants root) = Some acc ->
  search_target root query = Some acc
  /\ first_with (fun a => exists p, get_full_name a = p +:+ query)
       (get_descendants root) acc.
Proof.
  intros H. unfold search_target. rewrite H. split; [reflexivity|].
  eapply first_with_bool; [apply exact_or_endswith_iff | exact H].
Qed.

End FindAccount.

(** ** Locks and sessions *)

Section Locks.

Implicit Types (w : World) (file_path : string).

Lemma path_exists_true file_path w :
  os.path_exists file_path w = true <-> file_path ∈ files w.
Proof. unfold os.path_exists. apply bool_decide_eq_true. Qed.

Lemma path_exists_false file_path w :
  os.path_exists file_path w = false <-> file_path ∉ files w.
Proof. unfold os.path_exists. apply bool_decide_eq_false. Qed.

Lemma after_close_session w : current_session (after_close w) = None.
Proof.
  unfold after_close. case_eq (current_session w); [reflexivity | trivial].
Qed.

Lemma after_close_files w file_path :
  file_path ∈ files (after_close w) -> file_path ∈ files w.
Proof.
  unfold after_close, GncSession.end_.
  destruct (current_session w) as [s|]; [|trivial].
  destruct (session_mode s); simpl; intros Hin; [|exact Hin].
  apply elem_of_difference in Hin. tauto.
Qed.

Lemma after_close_probe w : is_gnucash_running (after_close w) = is_gnucash_running w.
Proof.
  unfold after_close, GncSession.end_, is_gnucash_running.
  destruct (current_session w) as [s|]; [|reflexivity].
  destruct (session_mode s); reflexivity.
Qed.

Lemma after_close_undeletable w : undeletable (after_close w) = undeletable w.
Proof.
  unfold after_close, GncSession.end_.
  destruct (current_session w) as [s|]; [|reflexivity].
  destruct (session_mode s); reflexivity.
Qed.

(** [open_file], step by step, over the process left by closing the
    session that was open. *)
Lemma open_file_steps file_path (break_lock : bool) w :
  open_file file_path break_lock w =
  let w1 := after_close w in
  if negb (os.path_exists file_path w1)
  then ("Error: File not found: " +:+ file_path, w1)
  else if break_lock && os.path_exists (file_path +:+ ".LCK") w1
  then if is_gnucash_running w1 then (lock_blocked, w1)
       else open_store file_path (snd (remove_stale_lock file_path w1))
  else open_store file_path w1.
Proof.
  unfold open_file, after_close, open_store, lock_blocked. cbn zeta.
  set (w1 := match current_session w with
             | Some s => set_session None (GncSession.end_ s w)
             | None => w
             end).
  destruct (os.path_exists file_path w1); [|reflexivity]. cbn [negb].
  destruct break_lock; [|reflexivity]. cbn [andb].
  destruct (os.path_exists (file_path +:+ ".LCK") w1); [|reflexivity].
  destruct (is_gnucash_running w1); reflexivity.
Qed.

(** What [remove_stale_lock] does to an existing lock file when the
    application is not reported running. *)
Lemma remove_stale_lock_absent file_path w :
  file_path +:+ ".LCK" ∈ files w ->
  is_gnucash_running w = false ->
  remove_stale_lock file_path w =
  if bool_decide (file_path +:+ ".LCK" ∈ undeletable w)
  then (false,
        print_stderr ("Failed to remove lock file: "
                        +:+ ("[Errno 13] Permission denied: '"
                               +:+ (file_path +:+ ".LCK") +:+ "'")) w)
  else (true,
        print_stderr ("Removed stale lock file: " +:+ (file_path +:+ ".LCK"))
          (set_files (files w ∖ {[file_path +:+ ".LCK"]}) w)).
Proof.
  intros Hlock Hrun. unfold remove_stale_lock. cbn zeta.
  apply path_exists_true in Hlock as Hex. rewrite Hex, Hrun. cbn [negb].
  unfold os.remove. rewrite (bool_decide_eq_true_2 _ Hlock).
  destruct (bool_decide (file_path +:+ ".LCK" ∈ undeletable w)); reflexivity.
Qed.

End Locks.

Section LockClaims.

Implicit Types (w : World) (file_path : string).

(** C4 (as amended).  When the process probe fails (the subprocess call
    raises or times out), [is_gnucash_running] answers [False]: the lock
    owner is assumed absent.  [remove_stale_lock] then deletes an existing
    lock file that the system lets it delete and reports success, and
    [open_file] with [break_lock] goes on to open the store. *)
Theorem probe_failure_assumes_not_running w file_path :
  pgrep w = ProbeRaised ->
  file_path ∈ files (after_close w) ->
  file_path +:+ ".LCK" ∈ files (after_close w) ->
  (file_path +:+ ".LCK") ∉ undeletable w ->
  is_gnucash_running w = false
  /\ remove_stale_lock file_path (after_close w)
     = (true,
        print_stderr ("Removed stale lock file: " +:+ (file_path +:+ ".LCK"))
          (set_files (files (after_close w) ∖ {[file_path +:+ ".LCK"]})
             (after_close w)))
  /\ ((file_path +:+ ".LCK")
        ∉ files (snd (remove_stale_lock file_path (after_close w))))
  /\ open_file file_path true w
     = open_store file_path (snd (remove_stale_lock file_path (after_close w))).
Proof.
  intros Hprobe Hpath Hlock Hdel.
  assert (is_gnucash_running w = false) as Hrun
    by (unfold is_gnucash_running; now rewrite Hprobe).
  assert (remove_stale_lock file_path (after_close w)
          = (true,
             print_stderr ("Removed stale lock file: " +:+ (file_path +:+ ".LCK"))
               (set_files (files (after_close w) ∖ {[file_path +:+ ".LCK"]})
                  (after_close w)))) as Hrm.
  { rewrite remove_stale_lock_absent; trivial.
    - rewrite after_close_undeletable. now rewrite (bool_decide_eq_false_2 _ Hdel).
    - now rewrite after_close_probe. }
  split; [exact Hrun|]. split; [exact Hrm|]. split.
  - rewrite Hrm. simpl. intros Hin. apply elem_of_difference in Hin.
    destruct Hin as [_ Hin]. apply Hin. now apply elem_of_singleton.
  - rewrite open_file_steps. cbn zeta.
    apply path_exists_true in Hpath, Hlock. rewrite Hpath, Hlock.
    now rewrite after_close_probe, Hrun.
Qed.

(** C4, the claim as written fails: with a lock file present and the probe
    raising, the lock file is deleted and the store is opened. *)
Lemma probe_failure_breaks_lock :
  pgrep (Sample.w_stale ProbeRaised ∅) = ProbeRaised
  /\ bool_decide ("/books/home.gnucash.LCK" ∈ files (Sample.w_stale ProbeRaised ∅)) = true
  /\ is_gnucash_running (Sample.w_stale ProbeRaised ∅) = false
  /\ fst (remove_stale_lock "/books/home.gnucash" (Sample.w_stale ProbeRaised ∅)) = true
  /\ bool_decide ("/books/home.gnucash.LCK"
                  ∈ files (snd (remove_stale_lock "/books/home.gnucash"
                                  (Sample.w_stale ProbeRaised ∅)))) = false
  /\ fst (open_file "/books/home.gnucash" true (Sample.w_stale ProbeRaised ∅))
     = "Successfully opened GnuCash file (read-write): /books/home.gnucash".
Proof. repeat split; vm_compute; reflexivity. Qed.

(** C5 (as amended).  For [open_file(path, break_lock=True)] on an existing
    store whose lock file exists when it is looked for: if the probe reports
    the application running, the call returns the lock error, deletes
    nothing and opens no session; if the probe reports it absent, deleting
    the lock file is attempted and the open proceeds either way: the lock
    file is gone when the deletion succeeds and still there, the failure
    only logged, when it does not. *)
Theorem open_file_break_lock w file_path :
  file_path ∈ files (after_close w) ->
  file_path +:+ ".LCK" ∈ files (after_close w) ->
  (is_gnucash_running w = true ->
     open_file file_path true w = (lock_blocked, after_close w)
     /\ file_path +:+ ".LCK" ∈ files (snd (open_file file_path true w))
     /\ current_session (snd (open_file file_path true w)) = None)
  /\ (is_gnucash_running w = false ->
      open_file file_path true w
      = open_store file_path (snd (remove_stale_lock file_path (after_close w)))
      /\ ((file_path +:+ ".LCK") ∉ undeletable w ->
          (file_path +:+ ".LCK")
            ∉ files (snd (remove_stale_lock file_path (after_close w))))
      /\ (file_path +:+ ".LCK" ∈ undeletable w ->
          file_path +:+ ".LCK"
            ∈ files (snd (remove_stale_lock file_path (after_close w))))).
Proof.
  intros Hpath Hlock.
  pose proof (open_file_steps file_path true w) as Hsteps. cbn zeta in Hsteps.
  apply path_exists_true in Hpath as Hp, Hlock as Hl.
  rewrite Hp, Hl, after_close_probe in Hsteps. cbn [negb andb] in Hsteps.
  split; intros Hrun; rewrite Hrun in Hsteps.
  - rewrite Hsteps. cbn [fst snd]. auto using after_close_session.
  - split; [exact Hsteps|].
    rewrite remove_stale_lock_absent, after_close_undeletable; trivial;
      [|now rewrite after_close_probe].
    split; intros Hdel.
    + rewrite (bool_decide_eq_false_2 _ Hdel). simpl. intros Hin.
      apply elem_of_difference in Hin. destruct Hin as [_ Hin].
      apply Hin. now apply elem_of_singleton.
    + rewrite (bool_decide_eq_true_2 _ Hdel). exact Hlock.
Qed.

(** C5, the claim as written fails: the probe reports the application
    absent, but the lock file cannot be deleted; the failure is logged, the
    lock file stays and the open is attempted all the same. *)
Lemma open_file_lock_not_removed :
  is_gnucash_running (Sample.w_stale (Completed 1) {["/books/home.gnucash.LCK"]}) = false
  /\ bool_decide ("/books/home.gnucash.LCK"
       ∈ files (Sample.w_stale (Completed 1) {["/books/home.gnucash.LCK"]})) = true
  /\ bool_decide ("/books/home.gnucash.LCK"
       ∈ files (snd (open_file "/books/home.gnucash" true
                       (Sample.w_stale (Completed 1) {["/books/home.gnucash.LCK"]}))))
     = true
  /\ stderr (snd (open_file "/books/home.gnucash" true
                    (Sample.w_stale (Completed 1) {["/books/home.gnucash.LCK"]})))
     = ["Failed to remove lock file: [Errno 13] Permission denied: '/books/home.gnucash.LCK'"]
  /\ fst (open_file "/books/home.gnucash" true
            (Sample.w_stale (Completed 1) {["/books/home.gnucash.LCK"]}))
     = "Error opening file: call to begin resulted in the following errors, ('ERR_BACKEND_LOCKED',). Try with break_lock=True if GnuCash is not running.".
Proof. repeat split; vm_compute; reflexivity. Qed.

(** C9.  [open_file] on a path that does not exist, while a session is
    open: the session is ended first, the call returns the file-not-found
    text, and no session is left open. *)
Theorem open_file_missing_path_ends_session w (s : Session) file_path
    (break_lock : bool) :
  current_session w = Some s ->
  file_path ∉ files w ->
  open_file file_path break_lock w
  = ("Error: File not found: " +:+ file_path,
     set_session None (GncSession.end_ s w))
  /\ current_session (snd (open_file file_path break_lock w)) = None.
Proof.
  intros Hs Hpath.
  assert (after_close w = set_session None (GncSession.end_ s w)) as Hclose
    by (unfold after_close; now rewrite Hs).
  assert (os.path_exists file_path (after_close w) = false) as Hex.
  { apply path_exists_false. intros Hin. apply Hpath.
    now apply after_close_files. }
  rewrite open_file_steps. cbn zeta. rewrite Hex. cbn [negb fst snd].
  rewrite <- Hclose. split; [reflexivity | apply after_close_session].
Qed.

End LockClaims.

Section LockWitnesses.

Lemma probe_failure_assumes_not_running_witness :
  is_gnucash_running (Sample.w_stale ProbeRaised ∅) = false
  /\ open_file "/books/home.gnucash" true (Sample.w_stale ProbeRaised ∅)
     = open_store "/books/home.gnucash"
         (snd (remove_stale_lock "/books/home.gnucash"
                 (after_close (Sample.w_stale ProbeRaised ∅)))).
Proof.
  destruct (probe_failure_assumes_not_running
              (Sample.w_stale ProbeRaised ∅) "/books/home.gnucash")
    as (Hrun & _ & _ & Hopen).
  - reflexivity.
  - by_evaluation.
  - by_evaluation.
  - by_evaluation.
  - split; [exact Hrun | exact Hopen].
Defined.

Lemma open_file_break_lock_witness :
  open_file "/books/home.gnucash" true (Sample.w_stale (Completed 0) ∅)
  = (lock_blocked, after_close (Sample.w_stale (Completed 0) ∅))
  /\ "/books/home.gnucash.LCK"
       ∉ files (snd (remove_stale_lock "/books/home.gnucash"
                       (after_close (Sample.w_stale (Completed 1) ∅)))).
Proof.
  split.
  - refine (proj1 (proj1 (open_file_break_lock
             (Sample.w_stale (Completed 0) ∅) "/books/home.gnucash" _ _) _));
      [by_evaluation | by_evaluation | reflexivity].
  - refine (proj1 (proj2 (proj2 (open_file_break_lock
             (Sample.w_stale (Completed 1) ∅) "/books/home.gnucash" _ _) _)) _);
      [by_evaluation | by_evaluation | reflexivity | by_evaluation].
Defined.

Lemma open_file_missing_path_ends_session_witness :
  open_file "/books/missing.gnucash" false Sample.w_open
  = ("Error: File not found: /books/missing.gnucash",
     set_session None
       (GncSession.end_
          (mkSession "/books/home.gnucash" SESSION_NORMAL_OPEN Sample.ledger)
          Sample.w_open))
  /\ current_session (snd (open_file "/books/missing.gnucash" false Sample.w_open))
     = None.
Proof.
  apply (open_file_missing_path_ends_session Sample.w_open
           (mkSession "/books/home.gnucash" SESSION_NORMAL_OPEN Sample.ledger)
           "/books/missing.gnucash" false).
  - reflexivity.
  - by_evaluation.
Defined.

End LockWitnesses.

(** ** Listings *)

Section Listings.

Lemma slice_from_zero {A : Type} (l : list A) : slice_from (- 0) l = l.
Proof.
  unfold slice_from. cbn [Z.opp Z.ltb Z.compare].
  rewrite Z.min_l by lia. reflexivity.
Qed.

Lemma for_each_length {A B : Type} (f : A -> Exc B) (l : list A) (ys : list B) :
  for_each f l = Return ys -> length ys = length l.
Proof.
  revert ys. induction l as [|x l IH]; intros ys; simpl.
  - intros [= <-]. reflexivity.
  - destruct (f x) as [y|e]; simpl; [|discriminate].
    destruct (for_each f l) as [ys'|e]; simpl; [|discriminate].
    intros [= <-]. simpl. f_equal. now apply IH.
Qed.

(** C8.  With a session open, [list_accounts] returns the lines
    [fullPath (TYPE)] of the descendants of the root, one per account, in
    sorted order and joined by newlines; it leaves the process as it was, so
    a second call returns the same text. *)
Theorem list_accounts_sorted_and_stable (w : World) (s : Session) :
  current_session w = Some s ->
  exists lines,
    list_accounts w = (PyStr.join nl lines, w)
    /\ StronglySorted PyStr.le lines
    /\ lines ≡ₚ map (fun acc => get_full_name acc +:+ " ("
                                  +:+ get_account_type_name (GetType acc) +:+ ")")
                   (get_descendants (get_root_account (book s)))
    /\ fst (list_accounts (snd (list_accounts w))) = fst (list_accounts w).
Proof.
  intros Hs. unfold list_accounts. rewrite Hs. cbn [fst snd]. rewrite Hs.
  eexists. split; [reflexivity|].
  split; [apply sorted_spec|]. split; [apply sorted_spec | reflexivity].
Qed.

(** C10.  For an account whose split list is not empty, [get_transactions]
    with [limit = 0] renders every split of the account: the slice
    [splits[-0:]] is the whole list. *)
Theorem get_transactions_limit_zero (w : World) (s : Session)
    (account_name : string) (target : Account) :
  current_session w = Some s ->
  search_target (get_root_account (book s)) account_name = Some target ->
  Store.GetSplitList (book s) target <> [] ->
  slice_from (- 0) (Store.GetSplitList (book s) target)
  = Store.GetSplitList (book s) target
  /\ get_transactions account_name 0 w
     = (match for_each (transaction_line (book s) target)
                (Store.GetSplitList (book s) target) with
        | Return transactions =>
            ("Transactions for " +:+ get_full_name target +:+ ":" +:+ nl
               +:+ PyStr.repeat "-"%char 60 +:+ nl) +:+ PyStr.join nl transactions
        | Raise e => "Error getting transactions: " +:+ e
        end, w)
  /\ (forall transactions,
        for_each (transaction_line (book s) target)
          (Store.GetSplitList (book s) target) = Return transactions ->
        length transactions = length (Store.GetSplitList (book s) target)).
Proof.
  intros Hs Htarget Hsplits. split; [apply slice_from_zero|]. split.
  - unfold get_transactions. rewrite Hs, Htarget. cbn zeta.
    rewrite slice_from_zero.
    destruct (Store.GetSplitList (book s) target) as [|x l] eqn:Hl; [congruence|].
    destruct (for_each (transaction_line (book s) target) (x :: l)); reflexivity.
  - intros transactions. apply for_each_length.
Qed.

Lemma list_accounts_sorted_and_stable_witness :
  exists lines,
    list_accounts Sample.w_open = (PyStr.join nl lines, Sample.w_open)
    /\ StronglySorted PyStr.le lines
    /\ lines ≡ₚ map (fun acc => get_full_name acc +:+ " ("
                                  +:+ get_account_type_name (GetType acc) +:+ ")")
                   (get_descendants Sample.root)
    /\ fst (list_accounts (snd (list_accounts Sample.w_open)))
       = fst (list_accounts Sample.w_open).
Proof.
  apply (list_accounts_sorted_and_stable Sample.w_open
           (mkSession "/books/home.gnucash" SESSION_NORMAL_OPEN Sample.ledger)).
  reflexivity.
Defined.

(** The listing of the sample ledger. *)
Example list_accounts_sample :
  fst (list_accounts Sample.w_open)
  = PyStr.join nl
      ["Assets (ASSET)"; "Assets.Bank (BANK)"; "Assets.Bank.Checking (BANK)";
       "Assets.Bank.Savings (BANK)"; "Euro (BANK)"].
Proof. vm_compute. reflexivity. Qed.

End Listings.

(** ** Creating a transaction *)

Section Transactions.

Lemma alter_last {A : Type} (f : A -> A) (l : list A) (x : A) :
  alter f (length l) (l ++ [x]) = l ++ [f x].
Proof.
  rewrite <- (Nat.add_0_r (length l)). now rewrite alter_app_r.
Qed.

(** The book [build_transaction] leaves, in closed form: one more
    transaction, committed, and two more splits. *)
Lemma build_transaction_result (commodity : Commodity)
    (source_account dest_account : Account) (amount_int fraction : Z)
    (description : string) (now tx_date : datetime) (memo : option string)
    (b : Book) :
  build_transaction commodity source_account dest_account amount_int fraction
    description now tx_date memo b
  = (length (book_transactions b),
     mkBook (get_root_account b)
       (book_transactions b
          ++ [mkTransaction (Some commodity) description now tx_date
                [length (book_splits b); S (length (book_splits b))] false])
       (book_splits b
          ++ [mkSplit (Some (length (book_transactions b)))
                (Some (acc_guid source_account))
                (mkGncNumeric (- amount_int) fraction)
                (mkGncNumeric (- amount_int) fraction)
                (memo_text memo) NotReconciled;
              mkSplit (Some (length (book_transactions b)))
                (Some (acc_guid dest_account))
                (mkGncNumeric amount_int fraction)
                (mkGncNumeric amount_int fraction)
                (memo_text memo) NotReconciled])).
Proof.
  destruct b as [root txs ss].
  unfold build_transaction, memo_text.
  destruct memo as [[|c m]|];
    cbv beta iota zeta delta
      [Store.Transaction_new Store.Split_new Store.BeginEdit Store.CommitEdit
       Store.SetCurrency Store.SetDescription Store.SetDateEnteredSecs
       Store.SetDatePostedSecs Store.SetParent Store.SetAccount Store.SetValue
       Store.SetAmount Store.SetMemo Store.with_transactions Store.with_splits
       get_root_account book_transactions book_splits PyStr.truthy default];
    repeat (rewrite alter_last;
            cbv beta iota delta
              [GetCurrency tx_description tx_date_entered GetDate tx_splits
               tx_in_edit split_parent split_account GetValue GetAmount
               GetMemo GetReconcile]);
    rewrite length_app, <- (app_assoc ss); cbn [app length];
    rewrite Nat.add_1_r; reflexivity.
Qed.

Lemma created_no_file (w : World) : created (get_no_file_error w) = false.
Proof.
  unfold get_no_file_error.
  destruct (configured_file w) as [[|c f]|]; reflexivity.
Qed.

(** What is known when [add_transaction] answers that it has created a
    transaction: every validation has passed, and the process differs from
    the one before only by the book that [build_transaction] has built. *)
Lemma add_transaction_created (from_account to_account : string) (amount : float)
    (description : string) (date memo : option string) (w w' : World)
    (msg : string) :
  add_transaction from_account to_account amount description date memo w = (msg, w') ->
  created msg = true ->
  exists s source_account dest_account commodity tx_date amount_int,
    current_session w = Some s
    /\ PyFloat.le_zero amount = false
    /\ find_account (get_root_account (book s)) from_account = Some source_account
    /\ find_account (get_root_account (book s)) to_account = Some dest_account
    /\ GetCommodity source_account = Some commodity
    /\ same_currency commodity dest_account
    /\ requested_date date w = Some tx_date
    /\ scaled_amount amount (get_fraction commodity) = Return amount_int
    /\ w' = set_session
              (Some (mkSession (session_path s) (session_mode s)
                       (snd (build_transaction commodity source_account
                               dest_account amount_int (get_fraction commodity)
                               description (clock w) tx_date memo (book s))))) w.
Proof.
  unfold add_transaction.
  destruct (current_session w) as [s|] eqn:Hs;
    [|intros [= <- <-] H; now rewrite created_no_file in H].
  destruct (PyFloat.le_zero amount) eqn:Hamount;
    [intros [= <- <-]; discriminate|].
  cbn zeta.
  destruct (find_account (get_root_account (book s)) from_account)
    as [source_account|] eqn:Hsrc; [|intros [= <- <-]; discriminate].
  destruct (find_account (get_root_account (book s)) to_account)
    as [dest_account|] eqn:Hdst; [|intros [= <- <-]; discriminate].
  destruct (GetCommodity source_account) as [commodity|] eqn:Hc;
    [|intros [= <- <-]; discriminate].
  assert (same_currency commodity dest_account
          \/ exists dc, GetCommodity dest_account = Some dc
                        /\ String.eqb (get_mnemonic commodity) (get_mnemonic dc) = false)
    as [Hsame | (dc & Hdc & Hne)].
  { unfold same_currency. destruct (GetCommodity dest_account) as [dc|]; [|now left].
    destruct (String.eqb (get_mnemonic commodity) (get_mnemonic dc)) eqn:Heq.
    - left. now apply String.eqb_eq.
    - right. now exists dc. }
  2: { rewrite Hdc, Hne. cbn [negb]. intros [= <- <-]. discriminate. }
  assert (match GetCommodity dest_account with
          | Some dest_commodity =>
              if negb (String.eqb (get_mnemonic commodity) (get_mnemonic dest_commodity))
              then Some (currency_mismatch commodity dest_commodity) else None
          | None => None
          end = None) as ->.
  { unfold same_currency in Hsame. destruct (GetCommodity dest_account); [|reflexivity].
    rewrite Hsame. now rewrite String.eqb_refl. }
  fold (requested_date date w).
  destruct (requested_date date w) as [tx_date|] eqn:Hdate;
    [|intros [= <- <-]; discriminate].
  fold (scaled_amount amount (get_fraction commodity)).
  destruct (scaled_amount amount (get_fraction commodity)) as [amount_int|e] eqn:Hn;
    [|intros [= <- <-]; discriminate].
  destruct (build_transaction commodity source_account dest_account amount_int
              (get_fraction commodity) description (clock w) tx_date memo (book s))
    as [tx b] eqn:Hb.
  intros [= <- <-] _.
  exists s, source_account, dest_account, commodity, tx_date, amount_int.
  rewrite Hb. repeat split; trivial.
Qed.

(** C1.  After a successful [add_transaction] the book holds one more
    transaction, committed, in the source commodity, with exactly two splits:
    the first on the source account with value [-round(amount * fraction)]
    over [fraction], the second on the destination account with value
    [+round(amount * fraction)] over the same [fraction]; their values sum to
    exactly zero. *)
Theorem add_transaction_balanced_pair (from_account to_account : string)
    (amount : float) (description : string) (date memo : option string)
    (w w' : World) (msg : string) :
  add_transaction from_account to_account amount description date memo w = (msg, w') ->
  created msg = true ->
  exists s s' source_account dest_account commodity amount_int tx split_from split_to,
    current_session w = Some s
    /\ current_session w' = Some s'
    /\ find_account (get_root_account (book s)) from_account = Some source_account
    /\ find_account (get_root_account (book s)) to_account = Some dest_account
    /\ GetCommodity source_account = Some commodity
    /\ scaled_amount amount (get_fraction commodity) = Return amount_int
    /\ book_transactions (book s') = book_transactions (book s) ++ [tx]
    /\ book_splits (book s') = book_splits (book s) ++ [split_from; split_to]
    /\ tx_in_edit tx = false
    /\ GetCurrency tx = Some commodity
    /\ tx_splits tx = [length (book_splits (book s));
                       S (length (book_splits (book s)))]
    /\ split_parent split_from = Some (length (book_transactions (book s)))
    /\ split_parent split_to = Some (length (book_transactions (book s)))
    /\ split_account split_from = Some (acc_guid source_account)
    /\ split_account split_to = Some (acc_guid dest_account)
    /\ GetValue split_from = mkGncNumeric (- amount_int) (get_fraction commodity)
    /\ GetValue split_to = mkGncNumeric amount_int (get_fraction commodity)
    /\ map (fun i => book_splits (book s') !! i) (tx_splits tx)
       = [Some split_from; Some split_to]
    /\ num (GetValue split_from) + num (GetValue split_to) = 0
    /\ Store.gnc_numeric_zero_p (Store.GetImbalanceValue (book s') tx) = true.
Proof.
  intros Hcall Hok.
  destruct (add_transaction_created _ _ _ _ _ _ _ _ _ Hcall Hok)
    as (s & source_account & dest_account & commodity & tx_date & amount_int
        & Hs & _ & Hsrc & Hdst & Hc & _ & _ & Hn & ->).
  rewrite build_transaction_result. cbn [snd].
  eexists s, _, source_account, dest_account, commodity, amount_int, _, _, _.
  cbn [current_session set_session book book_transactions book_splits].
  repeat (split; [first [eassumption | reflexivity]|]).
  split.
  { cbn [tx_splits map book book_splits].
    rewrite (list_lookup_middle (book_splits (book s)) _ _
               (length (book_splits (book s)))) by reflexivity.
    rewrite (lookup_app_r (book_splits (book s))) by lia.
    replace (S (length (book_splits (book s))) - length (book_splits (book s)))%nat
      with 1%nat by lia.
    reflexivity. }
  split; [cbn; lia|].
  unfold Store.GetImbalanceValue.
  cbn [tx_splits foldl book book_splits].
  rewrite (list_lookup_middle (book_splits (book s)) _ _ (length (book_splits (book s))))
    by reflexivity.
  rewrite (lookup_app_r (book_splits (book s))) by lia.
  replace (S (length (book_splits (book s))) - length (book_splits (book s)))%nat
    with 1%nat by lia.
  cbn [lookup list_lookup GetValue].
  unfold Store.gnc_numeric_zero_p, Store.gnc_numeric_add, gnc_numeric_zero.
  cbn [num denom].
  destruct (1 =? get_fraction commodity) eqn:Hf; cbn [num denom].
  - rewrite Hf. cbn [num]. apply Z.eqb_eq. lia.
  - rewrite Z.mul_1_l, Z.eqb_refl. cbn [num]. apply Z.eqb_eq. lia.
Qed.

(** C6.  With a source commodity of fraction 100, a successful
    [add_transaction] of 12.34 adds two splits with numerators -1234 and 1234
    over the denominator 100, and the positive split's value converted back
    ([float(num) / float(denom)]) is the float 12.34, displayed as 12.34. *)
Theorem add_transaction_12_34 (from_account to_account description : string)
    (date memo : option string) (w w' : World) (msg : string) (s : Session)
    (source_account : Account) (commodity : Commodity) :
  current_session w = Some s ->
  find_account (get_root_account (book s)) from_account = Some source_account ->
  GetCommodity source_account = Some commodity ->
  get_fraction commodity = 100 ->
  add_transaction from_account to_account 12.34%float description date memo w
  = (msg, w') ->
  created msg = true ->
  exists s' split_from split_to,
    current_session w' = Some s'
    /\ book_splits (book s') = book_splits (book s) ++ [split_from; split_to]
    /\ GetValue split_from = mkGncNumeric (-1234) 100
    /\ GetValue split_to = mkGncNumeric 1234 100
    /\ to_decimal (GetValue split_to) = Return 12.34%float
    /\ (value_decimal <- to_decimal (GetValue split_to) ;;;
        Return (PyFloat.format_2f value_decimal)) = Return "12.34".
Proof.
  intros Hs Hsrc Hc Hfraction Hcall Hok.
  destruct (add_transaction_created _ _ _ _ _ _ _ _ _ Hcall Hok)
    as (s0 & source0 & dest_account & commodity0 & tx_date & amount_int
        & Hs0 & _ & Hsrc0 & _ & Hc0 & _ & _ & Hn & ->).
  rewrite Hs in Hs0. injection Hs0 as <-.
  rewrite Hsrc in Hsrc0. injection Hsrc0 as <-.
  rewrite Hc in Hc0. injection Hc0 as <-.
  rewrite Hfraction in *.
  assert (amount_int = 1234) as ->
    by (vm_compute in Hn; now injection Hn as <-).
  rewrite build_transaction_result. cbn [snd].
  eexists _, _, _.
  cbn [current_session set_session book book_splits GetValue].
  split; [reflexivity|]. split; [reflexivity|].
  split; [reflexivity|]. split; [reflexivity|].
  split; vm_compute; reflexivity.
Qed.

(** [add_transaction] changes the process only when it reports success. *)
Lemma add_transaction_not_created (from_account to_account : string)
    (amount : float) (description : string) (date memo : option string)
    (w : World) :
  created (fst (add_transaction from_account to_account amount description
                  date memo w)) = false ->
  snd (add_transaction from_account to_account amount description date memo w) = w.
Proof.
  destruct (add_transaction from_account to_account amount description date memo w)
    as [msg w'] eqn:Hcall.
  cbn [fst snd]. intros Hno. revert Hcall. unfold add_transaction.
  repeat match goal with
         | |- context [match ?x with _ => _ end] => destruct x eqn:?
         end;
    intros [= <- <-]; first [reflexivity | discriminate Hno].
Qed.


End Transactions.

(** ** The claims on the sample ledger *)

Section TransactionWitnesses.

Lemma add_transaction_balanced_pair_witness :
  exists s' tx split_from split_to,
    current_session Sample.w_paid = Some s'
    /\ In tx (book_transactions (book s'))
    /\ In split_from (book_splits (book s'))
    /\ In split_to (book_splits (book s'))
    /\ split_account split_from = Some (acc_guid Sample.checking)
    /\ split_account split_to = Some (acc_guid Sample.savings)
    /\ num (GetValue split_from) + num (GetValue split_to) = 0
    /\ Store.gnc_numeric_zero_p (Store.GetImbalanceValue (book s') tx) = true.
Proof.
  destruct (add_transaction_balanced_pair "Checking" "Savings" 12.34%float "rent"
              (Some "2024-01-05") (Some "January") Sample.w_open Sample.w_paid
              (fst (add_transaction "Checking" "Savings" 12.34%float "rent"
                      (Some "2024-01-05") (Some "January") Sample.w_open)))
    as (s & s' & source_account & dest_account & commodity & amount_int & tx
        & split_from & split_to & Hs & Hs' & Hsrc & Hdst & _ & _ & Htxs & Hss
        & _ & _ & _ & _ & _ & Hfrom & Hto & _ & _ & _ & Hsum & Hzero).
  - unfold Sample.w_paid. apply surjective_pairing.
  - vm_compute. reflexivity.
  - injection Hs as <-.
    vm_compute in Hsrc. injection Hsrc as <-.
    vm_compute in Hdst. injection Hdst as <-.
    exists s', tx, split_from, split_to.
    split; [exact Hs'|]. rewrite Htxs, Hss.
    split; [apply in_or_app; right; left; reflexivity|].
    split; [apply in_or_app; right; left; reflexivity|].
    split; [apply in_or_app; right; right; left; reflexivity|].
    split; [exact Hfrom|]. split; [exact Hto|]. split; [exact Hsum|].
    exact Hzero.
Defined.

Lemma add_transaction_12_34_witness :
  exists s' split_from split_to,
    current_session Sample.w_paid = Some s'
    /\ book_splits (book s') = book_splits Sample.ledger ++ [split_from; split_to]
    /\ GetValue split_from = mkGncNumeric (-1234) 100
    /\ GetValue split_to = mkGncNumeric 1234 100
    /\ to_decimal (GetValue split_to) = Return 12.34%float
    /\ (value_decimal <- to_decimal (GetValue split_to) ;;;
        Return (PyFloat.format_2f value_decimal)) = Return "12.34".
Proof.
  apply (add_transaction_12_34 "Checking" "Savings" "rent" (Some "2024-01-05")
           (Some "January") Sample.w_open Sample.w_paid
           (fst (add_transaction "Checking" "Savings" 12.34%float "rent"
                   (Some "2024-01-05") (Some "January") Sample.w_open))
           (mkSession "/books/home.gnucash" SESSION_NORMAL_OPEN Sample.ledger)
           Sample.checking Sample.USD).
  - reflexivity.
  - vm_compute. reflexivity.
  - reflexivity.
  - reflexivity.
  - unfold Sample.w_paid. apply surjective_pairing.
  - vm_compute. reflexivity.
Defined.


Lemma get_transactions_limit_zero_witness :
  length (Store.GetSplitList (book Sample.paid_session) Sample.checking) = 1%nat
  /\ fst (get_transactions "Checking" 0 Sample.w_paid)
     = PyStr.join nl
         ["Transactions for Assets.Bank.Checking:";
          PyStr.repeat "-"%char 60;
          "2024-01-05 |     -12.34 USD | rent"].
Proof.
  destruct (get_transactions_limit_zero Sample.w_paid Sample.paid_session
              "Checking" Sample.checking) as (_ & Hall & _).
  - vm_compute. reflexivity.
  - vm_compute. reflexivity.
  - vm_compute. discriminate.
  - split; [vm_compute; reflexivity|].
    rewrite Hall. vm_compute. reflexivity.
Defined.

End TransactionWitnesses.

(** * Further properties of the tools *)

(** ** Resolution and search *)

Section Search.













End Search.

(** ** Account types and transaction listings *)

Section TypesAndLimits.

(** X4.  The fifteen GnuCash account type codes 0 to 14 have fifteen
    different names; any other code is shown as [UNKNOWN(code)]. *)
Theorem account_type_names (type_code : Z) :
  (type_code < 0 \/ 14 < type_code ->
   get_account_type_name type_code
   = "UNKNOWN(" +:+ PyStr.of_int type_code +:+ ")")
  /\ (0 <= type_code <= 14 ->
      type_map !! type_code = Some (get_account_type_name type_code)
      /\ forall other, 0 <= other <= 14 ->
           get_account_type_name other = get_account_type_name type_code ->
           other = type_code).
Proof.
  split.
  - intros Hout. unfold get_account_type_name.
    assert (type_map !! type_code = None) as ->; [|reflexivity].
    unfold type_map. apply not_elem_of_list_to_map. cbn [fmap list_fmap fst].
    rewrite !elem_of_cons, elem_of_nil. lia.
  - intros Hin.
    assert (type_code = 0 \/ type_code = 1 \/ type_code = 2 \/ type_code = 3
            \/ type_code = 4 \/ type_code = 5 \/ type_code = 6 \/ type_code = 7
            \/ type_code = 8 \/ type_code = 9 \/ type_code = 10 \/ type_code = 11
            \/ type_code = 12 \/ type_code = 13 \/ type_code = 14) as Hcases by lia.
    split.
    + repeat (destruct Hcases as [-> | Hcases]; [reflexivity|]).
      subst. reflexivity.
    + intros other Hother.
      assert (other = 0 \/ other = 1 \/ other = 2 \/ other = 3
              \/ other = 4 \/ other = 5 \/ other = 6 \/ other = 7
              \/ other = 8 \/ other = 9 \/ other = 10 \/ other = 11
              \/ other = 12 \/ other = 13 \/ other = 14) as Hcases' by lia.
      repeat (destruct Hcases as [-> | Hcases]);
        repeat (destruct Hcases' as [-> | Hcases']); subst;
        first [reflexivity | vm_compute; discriminate].
Qed.

Lemma account_type_names_witness :
  get_account_type_name 77 = "UNKNOWN(77)"
  /\ type_map !! 8 = Some "INCOME".
Proof.
  split.
  - apply (proj1 (account_type_names 77)). right. lia.
  - apply (proj1 (proj2 (account_type_names 8) ltac:(lia))).
Defined.

Lemma slice_from_last {A : Type} (limit : Z) (l : list A) :
  0 < limit ->
  slice_from (- limit) l = drop (length l - Z.to_nat limit) l.
Proof.
  intros Hpos. unfold slice_from.
  destruct (Z.ltb_spec (- limit) 0) as [_|]; [|lia]. f_equal. lia.
Qed.

Lemma slice_from_skip {A : Type} (limit : Z) (l : list A) :
  limit <= 0 ->
  slice_from (- limit) l = drop (Z.to_nat (- limit)) l.
Proof.
  intros Hneg. unfold slice_from.
  destruct (Z.ltb_spec (- limit) 0) as [|_]; [lia|].
  destruct (Z.le_gt_cases (- limit) (Z.of_nat (length l))) as [Hle | Hgt].
  - now rewrite Z.min_l.
  - rewrite Z.min_r by lia. rewrite Nat2Z.id.
    rewrite !drop_ge by lia. reflexivity.
Qed.

(** X5.  For an account with splits, [get_transactions] with a positive
    [limit] shows the last [limit] splits (all of them when there are
    fewer); with a zero or negative [limit] it shows all splits but the
    first [-limit]. *)
Theorem get_transactions_shows_slice (w : World) (s : Session)
    (account_name : string) (target : Account) (limit : Z) :
  current_session w = Some s ->
  search_target (get_root_account (book s)) account_name = Some target ->
  Store.GetSplitList (book s) target <> [] ->
  get_transactions account_name limit w
  = (render_transactions (book s) target
       (if 0 <? limit
        then drop (length (Store.GetSplitList (book s) target) - Z.to_nat limit)
               (Store.GetSplitList (book s) target)
        else drop (Z.to_nat (- limit)) (Store.GetSplitList (book s) target)), w).
Proof.
  intros Hs Htarget Hsplits.
  unfold get_transactions, render_transactions. rewrite Hs, Htarget. cbn zeta.
  destruct (Z.ltb_spec 0 limit) as [Hpos | Hneg].
  - rewrite slice_from_last by exact Hpos.
    destruct (Store.GetSplitList (book s) target) as [|x l] eqn:Hl; [congruence|].
    destruct (for_each _ _); reflexivity.
  - rewrite slice_from_skip by exact Hneg.
    destruct (Store.GetSplitList (book s) target) as [|x l] eqn:Hl; [congruence|].
    destruct (for_each _ _); reflexivity.
Qed.

Lemma get_transactions_shows_slice_witness :
  get_transactions "Checking" (-1) Sample.w_paid
  = (render_transactions (book Sample.paid_session) Sample.checking [], Sample.w_paid).
Proof.
  apply (get_transactions_shows_slice Sample.w_paid Sample.paid_session
           "Checking" Sample.checking (-1)).
  - vm_compute. reflexivity.
  - vm_compute. reflexivity.
  - vm_compute. discriminate.
Defined.

End TypesAndLimits.

(** ** Locks, closed files and read-only tools *)

Section Frames.

Implicit Types (w : World) (file_path : string).

(** X6.  The contract of [remove_stale_lock]: a [True] result means that
    no lock file is left; a [False] result means that the lock file is still
    there and no file was touched.  No path other than the lock path is ever
    removed, nothing is removed while the application is reported running,
    and the open session is not affected. *)
Theorem remove_stale_lock_contract w file_path :
  (fst (remove_stale_lock file_path w) = true ->
   (file_path +:+ ".LCK") ∉ files (snd (remove_stale_lock file_path w)))
  /\ (fst (remove_stale_lock file_path w) = false ->
      file_path +:+ ".LCK" ∈ files w
      /\ files (snd (remove_stale_lock file_path w)) = files w)
  /\ (forall p, p <> file_path +:+ ".LCK" ->
        (p ∈ files (snd (remove_stale_lock file_path w)) <-> p ∈ files w))
  /\ (is_gnucash_running w = true ->
      files (snd (remove_stale_lock file_path w)) = files w)
  /\ current_session (snd (remove_stale_lock file_path w)) = current_session w.
Proof.
  unfold remove_stale_lock, os.remove. cbn zeta.
  destruct (os.path_exists (file_path +:+ ".LCK") w) eqn:Hex; cbn [negb].
  - apply path_exists_true in Hex as Hin.
    destruct (is_gnucash_running w) eqn:Hrun.
    + cbn [fst snd]. repeat split; try discriminate; tauto.
    + rewrite (bool_decide_eq_true_2 _ Hin).
      destruct (bool_decide (file_path +:+ ".LCK" ∈ undeletable w));
        cbn [fst snd files current_session print_stderr set_files].
      * repeat split; try discriminate; tauto.
      * repeat split; try discriminate.
        -- intros _ Hin'. apply elem_of_difference in Hin'.
           destruct Hin' as [_ Hn]. apply Hn. now apply elem_of_singleton.
        -- intros Hp. apply elem_of_difference in Hp. tauto.
        -- intros Hp. apply elem_of_difference. split; [exact Hp|].
           intros Heq. apply elem_of_singleton in Heq. congruence.
  - apply path_exists_false in Hex. cbn [fst snd].
    repeat split; try discriminate; tauto.
Qed.

Lemma remove_stale_lock_contract_witness :
  fst (remove_stale_lock "/books/home.gnucash" (Sample.w_stale (Completed 1) ∅))
  = true
  /\ "/books/home.gnucash.LCK"
       ∉ files (snd (remove_stale_lock "/books/home.gnucash"
                       (Sample.w_stale (Completed 1) ∅))).
Proof.
  split; [vm_compute; reflexivity|].
  apply (proj1 (remove_stale_lock_contract (Sample.w_stale (Completed 1) ∅)
                  "/books/home.gnucash")).
  vm_compute. reflexivity.
Defined.

(** X7.  Once [close_file] has run, every tool that needs a session
    answers with the no-file error and changes nothing, and the session
    that was open, if any, has been ended. *)
Theorem tools_after_close_file w (name other : string) (limit : Z)
    (amount : float) (date memo : option string) :
  current_session (snd (close_file w)) = None
  /\ snd (close_file w) = after_close w
  /\ list_accounts (after_close w)
     = (get_no_file_error (after_close w), after_close w)
  /\ get_account_balance name (after_close w)
     = (get_no_file_error (after_close w), after_close w)
  /\ get_transactions name limit (after_close w)
     = (get_no_file_error (after_close w), after_close w)
  /\ search_accounts name (after_close w)
     = (get_no_file_error (after_close w), after_close w)
  /\ get_account_info name (after_close w)
     = (get_no_file_error (after_close w), after_close w)
  /\ add_transaction name other amount name date memo (after_close w)
     = (get_no_file_error (after_close w), after_close w)
  /\ commit (after_close w)
     = (get_no_file_error (after_close w), after_close w)
  /\ close_file (after_close w) = ("No file is currently open.", after_close w).
Proof.
  assert (snd (close_file w) = after_close w) as Hclose
    by (unfold close_file, after_close; destruct (current_session w); reflexivity).
  rewrite Hclose. pose proof (after_close_session w) as Hnone.
  unfold list_accounts, get_account_balance, get_transactions, search_accounts,
    get_account_info, add_transaction, commit, close_file.
  rewrite Hnone. repeat split.
Qed.


End Frames.

(** ** More on creating a transaction *)

Section TransactionFrames.

(** Multiplying NaN or an infinity never gives a finite number, so
    [round] raises on the product. *)
Lemma round_of_product_raises (amount y : float) :
  amount = nan \/ amount = infinity ->
  exists e, PyFloat.round (PrimFloat.mul amount y) = Raise e.
Proof.
  intros Hamount. unfold PyFloat.round. rewrite FloatAxioms.mul_spec.
  destruct Hamount as [-> | ->].
  - change (Prim2SF nan) with S754_nan.
    destruct (Prim2SF y) as [sy|sy| |sy my ey]; cbn; eauto.
  - change (Prim2SF infinity) with (S754_infinity false).
    destruct (Prim2SF y) as [sy|sy| |sy my ey]; cbn; eauto.
Qed.

Lemma scaled_amount_raises (amount : float) (fraction : Z) :
  amount = nan \/ amount = infinity ->
  exists e, scaled_amount amount fraction = Raise e.
Proof.
  intros Hamount. unfold scaled_amount, PyFloat.mul_int.
  destruct (PyFloat.of_int fraction) as [y|e]; cbn [exc_bind]; [|eauto].
  now apply round_of_product_raises.
Qed.

(** X9.  An amount that is NaN or plus infinity is not caught by the test
    [amount <= 0], yet [add_transaction] never creates a transaction for it
    and leaves the process unchanged. *)
Theorem add_transaction_rejects_non_finite (from_account to_account : string)
    (amount : float) (description : string) (date memo : option string)
    (w : World) :
  amount = nan \/ amount = infinity ->
  PyFloat.le_zero amount = false
  /\ created (fst (add_transaction from_account to_account amount description
                     date memo w)) = false
  /\ snd (add_transaction from_account to_account amount description date memo w)
     = w.
Proof.
  intros Hamount.
  assert (PyFloat.le_zero amount = false) as Hle
    by (destruct Hamount as [-> | ->]; reflexivity).
  assert (created (fst (add_transaction from_account to_account amount
                          description date memo w)) = false) as Hno.
  { destruct (created (fst (add_transaction from_account to_account amount
                              description date memo w))) eqn:Hok; [|reflexivity].
    destruct (add_transaction_created from_account to_account amount description
                date memo w _ _ (surjective_pairing _) Hok)
      as (s & src & dst & c & d & n & _ & _ & _ & _ & _ & _ & _ & Hn & _).
    destruct (scaled_amount_raises amount (get_fraction c) Hamount) as [e He].
    congruence. }
  split; [exact Hle|]. split; [exact Hno|].
  now apply add_transaction_not_created.
Qed.

Lemma add_transaction_rejects_non_finite_witness :
  PyFloat.le_zero nan = false
  /\ created (fst (add_transaction "Checking" "Savings" nan "rent" None None
                     Sample.w_open)) = false
  /\ snd (add_transaction "Checking" "Savings" nan "rent" None None Sample.w_open)
     = Sample.w_open.
Proof.
  apply (add_transaction_rejects_non_finite "Checking" "Savings" nan "rent"
           None None Sample.w_open).
  left. reflexivity.
Defined.



(** X11.  What a successful [add_transaction] records besides the values:
    the new transaction carries the description given, is entered now and
    posted on the date given (today when none, or an empty one, is given);
    both splits carry the memo given (none when it is missing or empty),
    an amount equal to their value, and are not reconciled. *)
Theorem add_transaction_records_details (from_account to_account : string)
    (amount : float) (description : string) (date memo : option string)
    (w w' : World) (msg : string) :
  add_transaction from_account to_account amount description date memo w = (msg, w') ->
  created msg = true ->
  exists s s' tx split_from split_to,
    current_session w = Some s
    /\ current_session w' = Some s'
    /\ book_transactions (book s') = book_transactions (book s) ++ [tx]
    /\ book_splits (book s') = book_splits (book s) ++ [split_from; split_to]
    /\ tx_description tx = description
    /\ tx_date_entered tx = clock w
    /\ requested_date date w = Some (GetDate tx)
    /\ GetMemo split_from = memo_text memo
    /\ GetMemo split_to = memo_text memo
    /\ GetAmount split_from = GetValue split_from
    /\ GetAmount split_to = GetValue split_to
    /\ GetReconcile split_from = NotReconciled
    /\ GetReconcile split_to = NotReconciled.
Proof.
  intros Hcall Hok.
  destruct (add_transaction_created _ _ _ _ _ _ _ _ _ Hcall Hok)
    as (s & src & dst & c & d & n & Hs & _ & _ & _ & _ & _ & Hdate & _ & ->).
  rewrite build_transaction_result. cbn [snd].
  eexists s, _, _, _, _.
  cbn [current_session set_session book book_transactions book_splits].
  repeat (split; [first [eassumption | reflexivity]|]). reflexivity.
Qed.

Lemma add_transaction_records_details_witness :
  exists s s' tx split_from split_to,
    current_session Sample.w_open = Some s
    /\ current_session Sample.w_paid = Some s'
    /\ book_transactions (book s') = book_transactions (book s) ++ [tx]
    /\ book_splits (book s') = book_splits (book s) ++ [split_from; split_to]
    /\ tx_description tx = "rent"
    /\ tx_date_entered tx = clock Sample.w_open
    /\ requested_date (Some "2024-01-05") Sample.w_open = Some (GetDate tx)
    /\ GetMemo split_from = memo_text (Some "January")
    /\ GetMemo split_to = memo_text (Some "January")
    /\ GetAmount split_from = GetValue split_from
    /\ GetAmount split_to = GetValue split_to
    /\ GetReconcile split_from = NotReconciled
    /\ GetReconcile split_to = NotReconciled.
Proof.
  apply (add_transaction_records_details "Checking" "Savings" 12.34%float "rent"
           (Some "2024-01-05") (Some "January") Sample.w_open Sample.w_paid
           (fst (add_transaction "Checking" "Savings" 12.34%float "rent"
                   (Some "2024-01-05") (Some "January") Sample.w_open))).
  - unfold Sample.w_paid. apply surjective_pairing.
  - vm_compute. reflexivity.
Defined.

End TransactionFrames.

(** ** Opening, saving and the life of the process *)

Section Lifecycle.

Implicit Types (w : World) (file_path : string).

Lemma after_close_globals w :
  write_mode (after_close w) = write_mode w
  /\ stored (after_close w) = stored w
  /\ configured_file (after_close w) = configured_file w.
Proof.
  unfold after_close, GncSession.end_.
  destruct (current_session w) as [s|]; [|auto].
  destruct (session_mode s); auto.
Qed.

Lemma remove_stale_lock_globals file_path w :
  write_mode (snd (remove_stale_lock file_path w)) = write_mode w
  /\ stored (snd (remove_stale_lock file_path w)) = stored w
  /\ configured_file (snd (remove_stale_lock file_path w)) = configured_file w
  /\ current_session (snd (remove_stale_lock file_path w)) = current_session w.
Proof.
  unfold remove_stale_lock, os.remove. cbn zeta.
  destruct (os.path_exists (file_path +:+ ".LCK") w); cbn [negb]; [|auto].
  destruct (is_gnucash_running w); [auto|].
  destruct (bool_decide (file_path +:+ ".LCK" ∈ files w)); [|auto].
  destruct (bool_decide (file_path +:+ ".LCK" ∈ undeletable w)); auto.
Qed.

(** What the session constructor returns when it returns. *)
Lemma session_open_result file_path (mode : SessionOpenMode) w (s : Session)
    (w' : World) :
  GncSession.open file_path mode w = Return (s, w') ->
  (exists b, stored w !! file_path = Some b /\ s = mkSession file_path mode b)
  /\ write_mode w' = write_mode w
  /\ stored w' = stored w
  /\ configured_file w' = configured_file w
  /\ current_session w' = current_session w.
Proof.
  unfold GncSession.open.
  destruct mode;
    [destruct (os.path_exists (GncSession.lock_of file_path) w); [discriminate|]|];
    destruct (stored w !! file_path) as [b|]; try discriminate;
    intros [= <- <-]; repeat split; eauto.
Qed.

(** The outcome of the last step of [open_file]. *)
Lemma open_store_outcome file_path w :
  current_session w = None ->
  write_mode (snd (open_store file_path w)) = write_mode w
  /\ stored (snd (open_store file_path w)) = stored w
  /\ match current_session (snd (open_store file_path w)) with
     | Some s =>
         session_path s = file_path
         /\ session_mode s = mode_of (write_mode w)
         /\ stored w !! file_path = Some (book s)
         /\ String.prefix "Successfully opened GnuCash file"
              (fst (open_store file_path w)) = true
     | None => String.prefix "Error" (fst (open_store file_path w)) = true
     end.
Proof.
  intros Hnone. unfold open_store. cbn zeta. fold (mode_of (write_mode w)).
  destruct (GncSession.open file_path (mode_of (write_mode w)) w)
    as [[s w']|e] eqn:Hopen.
  - destruct (session_open_result _ _ _ _ _ Hopen)
      as ((b & Hb & ->) & Hwm & Hst & _ & _).
    cbn [fst snd current_session set_session write_mode stored session_path
         session_mode book].
    repeat split; trivial. destruct (write_mode w); reflexivity.
  - destruct (PyStr.contains "LOCKED" (PyStr.upper e)); cbn [fst snd];
      rewrite Hnone; auto.
Qed.

(** X12.  After any call of [open_file] the session that was open before
    is gone: either no session is open and the text returned is an error,
    or the text reports success and the session is a new one on
    [file_path], in the mode of the process, holding the ledger the store
    file holds.  The mode of the process and the store files' contents are
    not changed. *)
Theorem open_file_outcome file_path (break_lock : bool) w :
  write_mode (snd (open_file file_path break_lock w)) = write_mode w
  /\ stored (snd (open_file file_path break_lock w)) = stored w
  /\ match current_session (snd (open_file file_path break_lock w)) with
     | Some s =>
         session_path s = file_path
         /\ session_mode s = mode_of (write_mode w)
         /\ stored w !! file_path = Some (book s)
         /\ String.prefix "Successfully opened GnuCash file"
              (fst (open_file file_path break_lock w)) = true
     | None =>
         String.prefix "Error" (fst (open_file file_path break_lock w)) = true
     end.
Proof.
  rewrite open_file_steps. cbn zeta.
  destruct (after_close_globals w) as (Hwm & Hst & _).
  pose proof (after_close_session w) as Hnone.
  destruct (os.path_exists file_path (after_close w)); cbn [negb];
    [|cbn [fst snd]; rewrite Hnone; auto].
  destruct (break_lock && os.path_exists (file_path +:+ ".LCK") (after_close w)).
  - destruct (is_gnucash_running (after_close w)).
    { cbn [fst snd]. rewrite Hnone. auto. }
    destruct (remove_stale_lock_globals file_path (after_close w))
      as (Hwm2 & Hst2 & _ & Hs2).
    rewrite Hnone in Hs2.
    pose proof (open_store_outcome file_path _ Hs2) as H.
    rewrite Hwm2, Hst2, Hwm, Hst in H. exact H.
  - pose proof (open_store_outcome file_path _ Hnone) as H.
    rewrite Hwm, Hst in H. exact H.
Qed.







(** X16.  Startup never breaks a live lock: when the configured store
    file exists, its lock file exists and the application is reported
    running, [main] exits with code 1 after logging the reason; it opens no
    session and leaves every file, the lock file included, in place. *)
Theorem main_refuses_live_lock (args_write : bool) (env_file : string) w :
  current_session w = None ->
  PyStr.truthy env_file = true ->
  env_file ∈ files w ->
  env_file +:+ ".LCK" ∈ files w ->
  is_gnucash_running w = true ->
  fst (main args_write (Some env_file) w) = Exited 1
  /\ files (snd (main args_write (Some env_file) w)) = files w
  /\ stored (snd (main args_write (Some env_file) w)) = stored w
  /\ current_session (snd (main args_write (Some env_file) w)) = None
  /\ last (stderr (snd (main args_write (Some env_file) w)))
     = Some "Error: Lock file exists and GnuCash is running. Close GnuCash first.".
Proof.
  intros Hnone Htruthy Hpath Hlock Hrun.
  unfold main, sys_exit. cbn zeta. rewrite Htruthy. cbn [negb].
  unfold os.path_exists, is_gnucash_running in *.
  cbn [files pgrep set_write_mode set_configured_file print_stderr].
  rewrite (bool_decide_eq_true_2 _ Hpath), (bool_decide_eq_true_2 _ Hlock), Hrun.
  cbn [negb]. unfold cleanup_session.
  cbn [current_session print_stderr set_configured_file set_write_mode].
  rewrite Hnone. cbn [fst snd files stored current_session stderr].
  repeat split; trivial. apply last_snoc.
Qed.

Lemma main_refuses_live_lock_witness :
  fst (main false (Some "/books/home.gnucash") (Sample.w_stale (Completed 0) ∅))
  = Exited 1
  /\ files (snd (main false (Some "/books/home.gnucash")
                   (Sample.w_stale (Completed 0) ∅)))
     = files (Sample.w_stale (Completed 0) ∅).
Proof.
  destruct (main_refuses_live_lock false "/books/home.gnucash"
              (Sample.w_stale (Completed 0) ∅)) as (Hexit & Hfiles & _).
  - reflexivity.
  - reflexivity.
  - by_evaluation.
  - by_evaluation.
  - reflexivity.
  - split; [exact Hexit | exact Hfiles].
Defined.

End Lifecycle.
